(** * BondTransferRootWatcher: the bonding decision of the hop-node watcher

    A shallow embedding of
    [packages/hop-node/src/watchers/BondTransferRootWatcher.ts].

    The watcher is an object whose methods are [async]: they read remote
    collaborators (the L1 bridge, the liquidity watcher, the configuration),
    mutate the transfer-root store, write to the logger and the notifier, and
    may throw.  The embedding threads an explicit [World] (store, event trace,
    clock reads) through a small state-and-exception monad [Async]; every
    observable action of the source appends one [Event] to the trace, in
    program order.

    Conventions. Amounts are ethers [BigNumber]s and are integers of [Z];
    chain ids and timestamps are JavaScript numbers that hold integers well
    inside the range where their arithmetic is exact, and are integers of [Z]
    too. The reads of the collaborators (minimum delay, bonded status, bond
    cost, credit, vault balance, store queries) are taken to answer; the two
    remote writes the watcher guards with [try]/[catch] - the vault withdrawal
    and the bonding transaction - may be rejected. The evaluations of one
    poll are run one after the other, in the order they are started. *)

From Stdlib Require Import ZArith List String Ascii Bool Lia.
From stdpp Require Import gmap strings list fin_maps.

Local Open Scope string_scope.
Local Open Scope list_scope.
Local Open Scope Z_scope.

(** ** Data model *)

(** Modelled from the spec: the stored transfer root (its TypeScript
    declaration is in [src/db/TransferRootsDb], not in the watcher's file),
    with the fields of the data model the watcher touches. Every field is
    optional in a stored record: the watcher reads them through [?.], [!]
    and [|| []]. *)
Module TransferRoot.
Record t : Type := mk {
  transferRootId : option string;
  transferRootHash : option string;
  totalAmount : option Z;
  destinationChainId : option Z;
  sourceChainId : option Z;
  committedAt : option Z;
  transferIds : option (list string);
  sentBondTxAt : option Z;
  isNotFound : option bool
}.

(** The record with no field set, [{}]. *)
Definition empty : t := mk None None None None None None None None None.

(** A field of the patch, when present, replaces the stored one. *)
Definition override {A} (old new : option A) : option A :=
  match new with Some v => Some v | None => old end.

(** [Object.assign({}, old, patch)]. *)
Definition assign (old patch : t) : t :=
  mk (override (transferRootId old) (transferRootId patch))
     (override (transferRootHash old) (transferRootHash patch))
     (override (totalAmount old) (totalAmount patch))
     (override (destinationChainId old) (destinationChainId patch))
     (override (sourceChainId old) (sourceChainId patch))
     (override (committedAt old) (committedAt patch))
     (override (transferIds old) (transferIds patch))
     (override (sentBondTxAt old) (sentBondTxAt patch))
     (override (isNotFound old) (isNotFound patch)).

(** The two patches the watcher writes. *)
Definition patchIsNotFound (b : bool) : t :=
  mk None None None None None None None None (Some b).
Definition patchSentBondTxAt (now : Z) : t :=
  mk None None None None None None None (Some now) None.
End TransferRoot.

(** The store of transfer roots, keyed by transfer root id. *)
Abbreviation Store := (gmap string TransferRoot.t).

(** An item as [getUnbondedTransferRoots] hands it to the watcher: the
    fields the loop of [checkTransfersCommittedFromDb] destructures. The
    member list stays optional, as the watcher itself guards it with
    [transferIds || []]. *)
Record UnbondedTransferRoot : Type := {
  uTransferRootId : string;
  uTransferRootHash : string;
  uTotalAmount : Z;
  uDestinationChainId : Z;
  uCommittedAt : Z;
  uSourceChainId : Z;
  uTransferIds : option (list string)
}.

(** ** Exceptions, log lines and events *)

Inductive Exn : Type :=
| ReorgDetected                 (* new Error('Possible reorg detected. ...') *)
| RemoteFailure (msg : string)  (* a rejected remote call *)
| TypeError.                    (* dereference of undefined *)

Definition message (e : Exn) : string :=
  match e with
  | ReorgDetected => "Possible reorg detected. bondTransferRoot tx not sent"
  | RemoteFailure msg => msg
  | TypeError => "Cannot read properties of undefined"
  end.

Inductive Level : Type := Debug | Info | Warn | Error.

(** One constructor per message text of the source, with the values the
    template interpolates. *)
Inductive Msg : Type :=
| MNoUnbonded
| MChecking (n : nat)
| MNotEnoughCredit (have need : Z)
| MTooEarly (waitMs : Z)
| MAlreadyBonded
| MRootInfo (source : Z) (rootId rootHash : string)
| MDump (label : string)
| MHashMismatch
| MDrySkip
| MAttemptBond (rootId : string) (dest : Z)
| MBondSent (dest : Z) (txHash rootHash : string)
| MSendError (err : string)
| MVaultState (availableCredit vaultBalance bondAmount : Z) (shouldWithdraw : bool)
| MAttemptWithdraw (amount : Z)
| MWithdrawError (err : string)
| MIdMismatch (calculated : string)
| MDestMismatch (dest : Z) (stored : option Z)
| MNotUnique (ids : list string).

Inductive Event : Type :=
| Log (lvl : Level) (m : Msg)                       (* logger.debug/info/warn/error *)
| Notify (lvl : Level) (m : Msg)                    (* notifier.info/error *)
| DbUpdate (id : string) (patch : TransferRoot.t)   (* db.transferRoots.update *)
| WithdrawFromVaultAndStake (chainId amount : Z)    (* sibling watcher call *)
| BondTransferRoot (rootHash : string) (dest total : Z) (* l1Bridge.bondTransferRoot *)
| MutexAcquire
| MutexRelease.

(** ** Collaborators *)

Record VaultConfig : Type := { autoWithdraw : option bool }.

Inductive TxResult : Type :=
| TxSent (hash : string)
| TxRejected (reason : string).

(** What the watcher is constructed with and what its collaborators answer.
    None of these is defined in the watcher's file; they are parameters of
    the development. *)
Record Env : Type := {
  (* BaseWatcher *)
  chainId : Z;                                   (* this.bridge.chainId *)
  tokenSymbol : string;
  dryMode : bool;
  chainIdToSlug : Z -> string;
  ethereumChainId : Z;                           (* chainSlugToId(Chain.Ethereum) *)
  routeOk : TransferRoot.t -> bool;              (* getFilterRoute *)
  (* globalConfig.vault *)
  vault : gmap string (gmap string VaultConfig);
  (* L1 bridge *)
  getMinTransferRootBondDelaySeconds : Z;
  isTransferRootIdBonded : string -> bool;
  getBondForTransferAmount : Z -> Z;
  bondTransferRoot : string -> Z -> Z -> TxResult;
  (* available liquidity watcher *)
  getBaseAvailableCreditIncludingVault : Z -> Z;
  getVaultBalance : Z -> Z;
  (* destination sibling watcher: None on success, the error text otherwise *)
  withdrawFromVaultAndStake : Z -> Z -> option string;
  (* utilities *)
  getTransferRootId : string -> Z -> string;
  getHexRoot : list string -> string;            (* new MerkleTree(ids).getHexRoot() *)
  (* store query over the trailing two weeks *)
  getTransferRootsFromTwoWeeks : Store -> list TransferRoot.t;
  (* the k-th reading of Date.now(), in milliseconds *)
  clock : nat -> Z
}.

(** ** The monad of async methods *)

Record World : Type := {
  db : Store;
  trace : list Event;
  ticks : nat
}.

Inductive Outcome (A : Type) : Type :=
| Returned (a : A)
| Thrown (e : Exn).
Arguments Returned {A} a.
Arguments Thrown {A} e.

Definition Async (A : Type) : Type := World -> Outcome A * World.

Definition ret {A} (a : A) : Async A := fun w => (Returned a, w).

Definition bind {A B} (m : Async A) (k : A -> Async B) : Async B :=
  fun w =>
    match m w with
    | (Returned a, w') => k a w'
    | (Thrown e, w') => (Thrown e, w')
    end.

Definition throw {A} (e : Exn) : Async A := fun w => (Thrown e, w).

(** [try { m } catch (err) { h err }] *)
Definition tryCatch {A} (m : Async A) (h : Exn -> Async A) : Async A :=
  fun w =>
    match m w with
    | (Returned a, w') => (Returned a, w')
    | (Thrown e, w') => h e w'
    end.

Declare Scope async_scope.
Delimit Scope async_scope with async.
Notation "x <- m ;; k" := (bind m (fun x => k))
  (at level 100, m at next level, right associativity) : async_scope.
Notation "m ;; k" := (bind m (fun _ => k))
  (at level 100, right associativity) : async_scope.
Local Open Scope async_scope.

(** The three ways a method changes the world: it appends events, it reads
    the clock, it writes a patch to the store (which is an event too). *)
Definition logged (evs : list Event) (w : World) : World :=
  {| db := db w; trace := trace w ++ evs; ticks := ticks w |}.

Definition ticked (w : World) : World :=
  {| db := db w; trace := trace w; ticks := S (ticks w) |}.

Definition emit (e : Event) : Async unit :=
  fun w => (Returned tt, logged [e] w).

Definition getDb : Async Store := fun w => (Returned (db w), w).

Definition execute {A} (m : Async A) (w : World) : World := snd (m w).
Definition result {A} (m : Async A) (w : World) : Outcome A := fst (m w).

(** The events a run of [m] from [w] adds to the trace. *)
Definition emitted {A} (m : Async A) (w : World) : list Event :=
  drop (length (trace w)) (trace (execute m w)).

(** [try { m } finally { f }]: [f] runs on every exit of [m]. *)
Definition finally {A} (m : Async A) (f : Async unit) : Async A :=
  fun w => let (r, w') := m w in (r, execute f w').

(** ** Small pieces of JavaScript *)

(** Truthiness of a [boolean | undefined]. *)
Definition truthy (o : option bool) : bool :=
  match o with Some b => b | None => false end.

(** [String.prototype.toLowerCase] on the ASCII range (transfer ids are
    hexadecimal strings). *)
Definition lowerAscii (c : ascii) : ascii :=
  let n := nat_of_ascii c in
  if ((65 <=? n) && (n <=? 90))%nat then ascii_of_nat (n + 32) else c.

Fixpoint toLowerCase (s : string) : string :=
  match s with
  | EmptyString => EmptyString
  | String c s' => String (lowerAscii c) (toLowerCase s')
  end.

(** [xs.filter(x => x === t).length] *)
Definition numOccurrences (t : string) (xs : list string) : nat :=
  length (filter (fun x => x = t) xs).

(** ** The transfer-root store *)

(** Modelled from the spec: [getByTransferRootId(id)] of the store, the
    record kept under [id] if there is one. *)
Definition getByTransferRootId (s : Store) (id : string) : option TransferRoot.t :=
  s !! id.

(** Modelled from the spec: [update(id, partialFields)] of the store, whose
    code is in [src/db/TransferRootsDb], not in the watcher's file. The
    given fields are merged into the record kept under [id]; the other
    fields and the other records are left as they are. *)
Definition storeUpdate (id : string) (patch : TransferRoot.t) (s : Store) : Store :=
  <[id := TransferRoot.assign (default TransferRoot.empty (s !! id)) patch]> s.

(** Modelled from the spec: an item of the unbonded-roots query carries the
    fields the poll loop destructures; a record that lacks one of them is no
    item. *)
Definition toUnbonded (r : TransferRoot.t) : option UnbondedTransferRoot :=
  match TransferRoot.transferRootId r, TransferRoot.transferRootHash r,
        TransferRoot.totalAmount r, TransferRoot.destinationChainId r,
        TransferRoot.committedAt r, TransferRoot.sourceChainId r with
  | Some id, Some h, Some total, Some dest, Some at_, Some src =>
      Some {| uTransferRootId := id; uTransferRootHash := h; uTotalAmount := total;
              uDestinationChainId := dest; uCommittedAt := at_; uSourceChainId := src;
              uTransferIds := TransferRoot.transferIds r |}
  | _, _, _, _, _, _ => None
  end.

(** Modelled from the spec: which stored records the unbonded-roots query
    selects (the query is code of [src/db/TransferRootsDb]). A record is
    pending when it is on a supported route, is not marked [isNotFound] and
    carries no [sentBondTxAt] marker. *)
Definition isPending (route : TransferRoot.t -> bool) (r : TransferRoot.t) : bool :=
  route r
  && negb (truthy (TransferRoot.isNotFound r))
  && bool_decide (TransferRoot.sentBondTxAt r = None).

(** Modelled from the spec: [getUnbondedTransferRoots(route)], absent from
    the watcher's file; the pending records of the store, as items. *)
Definition getUnbondedTransferRoots (route : TransferRoot.t -> bool) (s : Store)
  : list UnbondedTransferRoot :=
  omap toUnbonded (filter (fun r => isPending route r = true) (map snd (map_to_list s))).

(** The world after a write to the store: the patch is merged and the write
    is recorded in the trace. *)
Definition stored (id : string) (patch : TransferRoot.t) (w : World) : World :=
  {| db := storeUpdate id patch (db w);
     trace := trace w ++ [DbUpdate id patch];
     ticks := ticks w |}.

(** The exit a root evaluation takes. The TypeScript method resolves to
    [undefined] on each of them; the embedding returns which [return] was
    reached. *)
Inductive Exit : Type :=
| TooEarly          (* line 110 *)
| AlreadyBonded     (* line 117 *)
| HashMismatch      (* line 137 *)
| NotEnoughCredit   (* line 151 *)
| DryRun            (* line 156 *)
| Sent.             (* end of the method, line 183 *)

(** ** The watcher *)

Section Watcher.
Context (E : Env).

Definition logger (lvl : Level) (m : Msg) : Async unit := emit (Log lvl m).
Definition notifier (lvl : Level) (m : Msg) : Async unit := emit (Notify lvl m).

(** [Date.now()] *)
Definition dateNow : Async Z :=
  fun w => (Returned (clock E (ticks w)), ticked w).

(** [this.db.transferRoots.update(id, patch)] *)
Definition update (id : string) (patch : TransferRoot.t) : Async unit :=
  fun w => (Returned tt, stored id patch w).

(** [this.mutex.runExclusive(f)], one evaluation at a time. *)
Definition runExclusive {A} (m : Async A) : Async A :=
  emit MutexAcquire;; finally m (emit MutexRelease).

(** [destinationWatcher.withdrawFromVaultAndStake(amount)] *)
Definition callWithdrawFromVaultAndStake (dest amount : Z) : Async unit :=
  emit (WithdrawFromVaultAndStake dest amount);;
  match withdrawFromVaultAndStake E dest amount with
  | None => ret tt
  | Some msg => throw (RemoteFailure msg)
  end.

(** [l1Bridge.bondTransferRoot(rootHash, dest, total)] *)
Definition callBondTransferRoot (rootHash : string) (dest total : Z) : Async string :=
  emit (BondTransferRoot rootHash dest total);;
  match bondTransferRoot E rootHash dest total with
  | TxSent h => ret h
  | TxRejected reason => throw (RemoteFailure reason)
  end.

Definition getAvailableCreditForBond (destinationChainId : Z) : Z :=
  let baseAvailableCredit := getBaseAvailableCreditIncludingVault E destinationChainId in
  baseAvailableCredit.

(** [globalConfig.vault[this.tokenSymbol]?.[slug]?.autoWithdraw] *)
Definition autoWithdrawFlag (destinationChainId : Z) : option bool :=
  match vault E !! tokenSymbol E with
  | None => None
  | Some perChain =>
      match perChain !! chainIdToSlug E destinationChainId with
      | None => None
      | Some cfg => autoWithdraw cfg
      end
  end.

Definition withdrawFromVaultIfNeeded (destinationChainId bondAmount : Z) : Async unit :=
  if negb (truthy (autoWithdrawFlag destinationChainId)) then ret tt
  else
    runExclusive (
      let availableCredit := getAvailableCreditForBond destinationChainId in
      let vaultBalance := getVaultBalance E destinationChainId in
      let shouldWithdraw := (availableCredit - vaultBalance) <? bondAmount in
      logger Debug (MVaultState availableCredit vaultBalance bondAmount shouldWithdraw);;
      if shouldWithdraw then
        tryCatch
          (let msg := MAttemptWithdraw vaultBalance in
           notifier Info msg;;
           logger Info msg;;
           callWithdrawFromVaultAndStake destinationChainId vaultBalance)
          (fun err =>
             let errMsg := MWithdrawError (message err) in
             notifier Error errMsg;;
             logger Error errMsg;;
             throw err)
      else ret tt).

(** The loop of lines 266-271, continuing from the identifiers gathered so
    far. A record of this chain without [transferIds] makes [for ... of]
    throw. *)
Fixpoint gatherTransferIds (dbTransferRoots : list TransferRoot.t)
    (dbTransferIds : list string) : Outcome (list string) :=
  match dbTransferRoots with
  | [] => Returned dbTransferIds
  | dbTransferRoot :: rest =>
      if negb (bool_decide (TransferRoot.sourceChainId dbTransferRoot = Some (chainId E)))
      then gatherTransferIds rest dbTransferIds
      else
        match TransferRoot.transferIds dbTransferRoot with
        | None => Thrown TypeError
        | Some ids => gatherTransferIds rest (dbTransferIds ++ map toLowerCase ids)
        end
  end.

Definition liftOutcome {A} (o : Outcome A) : Async A := fun w => (o, w).

Definition isPreTransactionDataValid
    (transferRootHash : string) (destinationChainId totalAmount : Z) : Async bool :=
  let calculatedTransferRootId := getTransferRootId E transferRootHash totalAmount in
  store <- getDb;;
  let calculatedDbTransferRoot := getByTransferRootId store calculatedTransferRootId in
  if negb (bool_decide
             (calculatedDbTransferRoot ≫= TransferRoot.transferRootId
              = Some calculatedTransferRootId))
  then logger Error (MIdMismatch calculatedTransferRootId);; ret false
  else
  if negb (bool_decide
             (calculatedDbTransferRoot ≫= TransferRoot.destinationChainId
              = Some destinationChainId))
  then
    logger Error (MDestMismatch destinationChainId
                    (calculatedDbTransferRoot ≫= TransferRoot.destinationChainId));;
    ret false
  else
  match calculatedDbTransferRoot ≫= TransferRoot.transferIds with
  | None => throw TypeError
  | Some ids =>
      let transferIds := map toLowerCase ids in
      store' <- getDb;;
      let dbTransferRoots := getTransferRootsFromTwoWeeks E store' in
      dbTransferIds <- liftOutcome (gatherTransferIds dbTransferRoots []);;
      let areTransferIdsUnique :=
        forallb (fun transferId => (numOccurrences transferId dbTransferIds =? 1)%nat)
                transferIds in
      if negb areTransferIdsUnique
      then logger Error (MNotUnique transferIds);; ret false
      else ret true
  end.

Definition sendBondTransferRoot
    (transferRootHash : string) (destinationChainId totalAmount : Z) : Async string :=
  isValid <- isPreTransactionDataValid transferRootHash destinationChainId totalAmount;;
  if negb isValid then throw ReorgDetected
  else callBondTransferRoot transferRootHash destinationChainId totalAmount.

(** Lines 169-182: the guarded transmission. *)
Definition transmitPhase
    (transferRootHash : string) (totalAmount destinationChainId : Z) : Async Exit :=
  tryCatch
    (txHash <- sendBondTransferRoot transferRootHash destinationChainId totalAmount;;
     let msg := MBondSent destinationChainId txHash transferRootHash in
     logger Info msg;;
     notifier Info msg;;
     ret Sent)
    (fun err =>
       logger Error (MSendError (message err));;
       throw err).

(** Lines 159-167, then [transmitPhase]: vault and intent marker. *)
Definition bondPhase
    (transferRootId transferRootHash : string)
    (totalAmount destinationChainId bondAmount : Z) : Async Exit :=
  withdrawFromVaultIfNeeded destinationChainId bondAmount;;
  logger Debug (MAttemptBond transferRootId destinationChainId);;
  now <- dateNow;;
  update transferRootId (TransferRoot.patchSentBondTxAt now);;
  transmitPhase transferRootHash totalAmount destinationChainId.

(** Lines 141-157, then [bondPhase]: the precise credit check and the dry
    mode. *)
Definition creditPhase
    (transferRootId transferRootHash : string)
    (totalAmount destinationChainId : Z) : Async Exit :=
  let bondChainId := ethereumChainId E in
  let bondAmount := getBondForTransferAmount E totalAmount in
  let availableCredit := getAvailableCreditForBond bondChainId in
  let notEnoughCredit := availableCredit <? bondAmount in
  if notEnoughCredit then
    let msg := MNotEnoughCredit availableCredit bondAmount in
    logger Error msg;;
    notifier Error msg;;
    ret NotEnoughCredit
  else
  if dryMode E then
    logger Warn MDrySkip;;
    ret DryRun
  else
    bondPhase transferRootId transferRootHash totalAmount destinationChainId bondAmount.

(** Lines 129-139, then [creditPhase]: the merkle root of the known
    members against the stored hash. *)
Definition hashPhase
    (transferRootId transferRootHash : string)
    (totalAmount destinationChainId : Z)
    (transferIds : option (list string)) : Async Exit :=
  let continue_ :=
    creditPhase transferRootId transferRootHash totalAmount destinationChainId in
  let pendingTransfers := default [] transferIds in
  logger Debug (MDump "transferRootHash transferIds:");;
  if (0 <? length pendingTransfers)%nat then
    let rootHash := getHexRoot E pendingTransfers in
    logger Debug (MDump "calculated transfer root hash:");;
    if negb (String.eqb rootHash transferRootHash) then
      logger Error MHashMismatch;;
      ret HashMismatch
    else continue_
  else continue_.

(** Lines 113-127, then [hashPhase]: the remote bonded check. *)
Definition bondedPhase
    (transferRootId transferRootHash : string)
    (totalAmount destinationChainId committedAt sourceChainId : Z)
    (transferIds : option (list string)) : Async Exit :=
  let isBonded := isTransferRootIdBonded E transferRootId in
  if isBonded then
    logger Warn MAlreadyBonded;;
    update transferRootId (TransferRoot.patchIsNotFound true);;
    ret AlreadyBonded
  else
    logger Info (MRootInfo sourceChainId transferRootId transferRootHash);;
    logger Debug (MDump "committedAt:");;
    logger Debug (MDump "destinationChainId:");;
    logger Debug (MDump "sourceChainId:");;
    logger Debug (MDump "transferRootId:");;
    logger Debug (MDump "transferRootHash:");;
    logger Debug (MDump "totalAmount:");;
    logger Debug (MDump "transferRootId:");;
    hashPhase transferRootId transferRootHash totalAmount destinationChainId transferIds.

(** The method, lines 87-183: the timing gate, then [bondedPhase]. *)
Definition checkTransfersCommitted
    (transferRootId transferRootHash : string)
    (totalAmount destinationChainId committedAt sourceChainId : Z)
    (transferIds : option (list string)) : Async Exit :=
  let minDelaySec := getMinTransferRootBondDelaySeconds E in
  let minDelayMs := minDelaySec * 1000 in
  let committedAtMs := committedAt * 1000 in
  now <- dateNow;;
  let delta := now - committedAtMs - minDelayMs in
  let shouldBond := delta >? 0 in
  if negb shouldBond then
    logger Debug (MTooEarly (Z.abs delta));;
    ret TooEarly
  else
    bondedPhase transferRootId transferRootHash totalAmount destinationChainId
      committedAt sourceChainId transferIds.

(** The loop of lines 50-82. A root that fails the coarse check is logged
    and passed over; for every other root an evaluation is started and its
    promise kept. No evaluation emits anything before its first [await],
    so the log lines of the loop come before the events of the
    evaluations. *)
Fixpoint startEvaluations (dbTransferRoots : list UnbondedTransferRoot)
  : Async (list (Async Exit)) :=
  match dbTransferRoots with
  | [] => ret []
  | dbTransferRoot :: rest =>
      let totalAmount := uTotalAmount dbTransferRoot in
      let bondChainId := ethereumChainId E in
      let availableCredit := getAvailableCreditForBond bondChainId in
      let notEnoughCredit := availableCredit <? totalAmount in
      if notEnoughCredit then
        logger Debug (MNotEnoughCredit availableCredit totalAmount);;
        startEvaluations rest
      else
        promises <- startEvaluations rest;;
        ret (checkTransfersCommitted
               (uTransferRootId dbTransferRoot)
               (uTransferRootHash dbTransferRoot)
               totalAmount
               (uDestinationChainId dbTransferRoot)
               (uCommittedAt dbTransferRoot)
               (uSourceChainId dbTransferRoot)
               (uTransferIds dbTransferRoot) :: promises)
  end.

(** [Promise.all(promises)] under the schedule that completes the
    evaluations one after the other, in the order they were started:
    every evaluation runs to its end, and the first rejection is the one
    reported. *)
Fixpoint promiseAll (promises : list (Async Exit)) : Async unit :=
  match promises with
  | [] => ret tt
  | p :: rest =>
      fun w =>
        match p w with
        | (Returned _, w') => promiseAll rest w'
        | (Thrown err, w') => (Thrown err, execute (promiseAll rest) w')
        end
  end.

Definition checkTransfersCommittedFromDb : Async unit :=
  store <- getDb;;
  let dbTransferRoots := getUnbondedTransferRoots (routeOk E) store in
  if (length dbTransferRoots =? 0)%nat then
    logger Debug MNoUnbonded
  else
    logger Info (MChecking (length dbTransferRoots));;
    promises <- startEvaluations dbTransferRoots;;
    promiseAll promises.

Definition pollHandler : Async unit := checkTransfersCommittedFromDb.
End Watcher.

(** * Vocabulary of the statements *)

(** ** Reading a trace *)

Definition bondTxs (evs : list Event) : list (string * Z * Z) :=
  omap (fun e => match e with BondTransferRoot h d t => Some (h, d, t) | _ => None end) evs.

Definition withdrawals (evs : list Event) : list (Z * Z) :=
  omap (fun e => match e with WithdrawFromVaultAndStake c a => Some (c, a) | _ => None end) evs.

Definition dbUpdates (evs : list Event) : list (string * TransferRoot.t) :=
  omap (fun e => match e with DbUpdate id p => Some (id, p) | _ => None end) evs.

Definition notifications (evs : list Event) : list (Level * Msg) :=
  omap (fun e => match e with Notify l m => Some (l, m) | _ => None end) evs.

Definition logLines (evs : list Event) : list (Level * Msg) :=
  omap (fun e => match e with Log l m => Some (l, m) | _ => None end) evs.

(** ** The vault step, summarised *)

(** What a run of [withdrawFromVaultIfNeeded] emits. *)
Definition vaultEvents (E : Env) (destinationChainId bondAmount : Z) : list Event :=
  let availableCredit := getAvailableCreditForBond E destinationChainId in
  let vaultBalance := getVaultBalance E destinationChainId in
  if truthy (autoWithdrawFlag E destinationChainId) then
    let shouldWithdraw := availableCredit - vaultBalance <? bondAmount in
    [MutexAcquire;
     Log Debug (MVaultState availableCredit vaultBalance bondAmount shouldWithdraw)]
    ++ (if shouldWithdraw then
          [Notify Info (MAttemptWithdraw vaultBalance);
           Log Info (MAttemptWithdraw vaultBalance);
           WithdrawFromVaultAndStake destinationChainId vaultBalance]
          ++ match withdrawFromVaultAndStake E destinationChainId vaultBalance with
             | None => []
             | Some msg => [Notify Error (MWithdrawError msg);
                            Log Error (MWithdrawError msg)]
             end
        else [])
    ++ [MutexRelease]
  else [].

(** How it ends. *)
Definition vaultOutcome (E : Env) (destinationChainId bondAmount : Z) : Outcome unit :=
  let availableCredit := getAvailableCreditForBond E destinationChainId in
  let vaultBalance := getVaultBalance E destinationChainId in
  if truthy (autoWithdrawFlag E destinationChainId)
     && (availableCredit - vaultBalance <? bondAmount)
  then match withdrawFromVaultAndStake E destinationChainId vaultBalance with
       | None => Returned tt
       | Some msg => Thrown (RemoteFailure msg)
       end
  else Returned tt.

(** ** The reorg validator, summarised *)

(** A world that holds the store [s] and nothing else. *)
Definition blank (s : Store) : World := {| db := s; trace := []; ticks := 0 |}.

(** What the validator answers over the store [s], and what it logs. *)
Definition validation (E : Env) (s : Store) (rootHash : string) (dest total : Z)
  : Outcome bool :=
  result (isPreTransactionDataValid E rootHash dest total) (blank s).

Definition validationLog (E : Env) (s : Store) (rootHash : string) (dest total : Z)
  : list Event :=
  trace (execute (isPreTransactionDataValid E rootHash dest total) (blank s)).

(** The conditions of the validator in the words of the specification. *)
Section ValidatorWords.
Context (E : Env) (s : Store) (rootHash : string) (dest total : Z).

(** The record fetched under the recomputed id. *)
Definition targetRecord : option TransferRoot.t :=
  getByTransferRootId s (getTransferRootId E rootHash total).

(** A record is stored under the recomputed id and carries that very id. *)
Definition recordFound : Prop :=
  targetRecord ≫= TransferRoot.transferRootId = Some (getTransferRootId E rootHash total).

(** Its destination chain is the one about to be used. *)
Definition destinationMatches : Prop :=
  targetRecord ≫= TransferRoot.destinationChainId = Some dest.

(** The records of the trailing two weeks sourced from the watcher's chain. *)
Definition sameChainWindow : list TransferRoot.t :=
  filter (fun r => TransferRoot.sourceChainId r = Some (chainId E))
         (getTransferRootsFromTwoWeeks E s).

(** Their member identifiers, flattened and case-normalized. *)
Definition flattenIds (roots : list TransferRoot.t) : list string :=
  flat_map (fun r => map toLowerCase (default [] (TransferRoot.transferIds r))) roots.

(** The case-normalized member identifiers of the target record. *)
Definition targetIds : list string :=
  map toLowerCase (default [] (targetRecord ≫= TransferRoot.transferIds)).

(** Some identifier of the target occurs zero times or more than once. *)
Definition notUnique : Prop :=
  Exists (fun x => numOccurrences x (flattenIds sameChainWindow) <> 1%nat) targetIds.

(** [transferIds] is there wherever the validator dereferences it. *)
Definition idsPresent : Prop :=
  is_Some (targetRecord ≫= TransferRoot.transferIds)
  /\ Forall (fun r => is_Some (TransferRoot.transferIds r)) sameChainWindow.
End ValidatorWords.

#[global] Instance recordFound_dec E s h t : Decision (recordFound E s h t).
Proof. unfold recordFound. apply _. Defined.

#[global] Instance destinationMatches_dec E s h d t : Decision (destinationMatches E s h d t).
Proof. unfold destinationMatches. apply _. Defined.

#[global] Instance notUnique_dec E s h t : Decision (notUnique E s h t).
Proof. unfold notUnique. apply _. Defined.

#[global] Instance idsPresent_dec E s h t : Decision (idsPresent E s h t).
Proof. unfold idsPresent. apply _. Defined.

(** ** The phases of an evaluation, summarised *)

(** What the guarded transmission emits over the store [s], and how it
    ends. *)
Definition transmitEvents (E : Env) (s : Store) (rootHash : string) (total dest : Z)
  : list Event :=
  validationLog E s rootHash dest total
  ++ match validation E s rootHash dest total with
     | Returned true =>
         BondTransferRoot rootHash dest total
         :: match bondTransferRoot E rootHash dest total with
            | TxSent txHash => [Log Info (MBondSent dest txHash rootHash);
                                Notify Info (MBondSent dest txHash rootHash)]
            | TxRejected reason => [Log Error (MSendError reason)]
            end
     | Returned false => [Log Error (MSendError (message ReorgDetected))]
     | Thrown e => [Log Error (MSendError (message e))]
     end.

Definition transmitOutcome (E : Env) (s : Store) (rootHash : string) (total dest : Z)
  : Outcome Exit :=
  match validation E s rootHash dest total with
  | Returned true =>
      match bondTransferRoot E rootHash dest total with
      | TxSent _ => Returned Sent
      | TxRejected reason => Thrown (RemoteFailure reason)
      end
  | Returned false => Thrown ReorgDetected
  | Thrown e => Thrown e
  end.

(** The same for lines 159-182, entered with the store [s] when the clock
    reads [now]. *)
Definition sendEvents (E : Env) (rootId rootHash : string) (total dest bond : Z)
    (s : Store) (now : Z) : list Event :=
  vaultEvents E dest bond
  ++ match vaultOutcome E dest bond with
     | Thrown _ => []
     | Returned _ =>
         [Log Debug (MAttemptBond rootId dest);
          DbUpdate rootId (TransferRoot.patchSentBondTxAt now)]
         ++ transmitEvents E (storeUpdate rootId (TransferRoot.patchSentBondTxAt now) s)
              rootHash total dest
     end.

Definition sendOutcome (E : Env) (rootId rootHash : string) (total dest bond : Z)
    (s : Store) (now : Z) : Outcome Exit :=
  match vaultOutcome E dest bond with
  | Thrown e => Thrown e
  | Returned _ =>
      transmitOutcome E (storeUpdate rootId (TransferRoot.patchSentBondTxAt now) s)
        rootHash total dest
  end.

(** The log lines of lines 120-127. *)
Definition infoLog (rootId rootHash : string) (src : Z) : list Event :=
  [Log Info (MRootInfo src rootId rootHash);
   Log Debug (MDump "committedAt:");
   Log Debug (MDump "destinationChainId:");
   Log Debug (MDump "sourceChainId:");
   Log Debug (MDump "transferRootId:");
   Log Debug (MDump "transferRootHash:");
   Log Debug (MDump "totalAmount:");
   Log Debug (MDump "transferRootId:")].

(** The log lines of the hash verification, its verdict apart. *)
Definition hashLog (ids : option (list string)) : list Event :=
  Log Debug (MDump "transferRootHash transferIds:")
  :: (if (0 <? length (default [] ids))%nat
      then [Log Debug (MDump "calculated transfer root hash:")]
      else []).

(** The recomputed merkle root agrees with the stored hash, or no member is
    known. *)
Definition hashOk (E : Env) (rootHash : string) (ids : option (list string)) : bool :=
  if (0 <? length (default [] ids))%nat
  then String.eqb (getHexRoot E (default [] ids)) rootHash
  else true.

(** The timing gate lets the evaluation through. *)
Definition timingOk (E : Env) (committedAt : Z) (w : World) : bool :=
  clock E (ticks w) - committedAt * 1000 - getMinTransferRootBondDelaySeconds E * 1000 >? 0.

(** The precise credit check lets it through. *)
Definition creditOk (E : Env) (total : Z) : bool :=
  negb (getAvailableCreditForBond E (ethereumChainId E) <? getBondForTransferAmount E total).

(** The evaluation goes as far as the precise credit check, line 141. *)
Definition reachesCreditCheck (E : Env) (rootId rootHash : string) (committedAt : Z)
    (ids : option (list string)) (w : World) : bool :=
  timingOk E committedAt w
  && negb (isTransferRootIdBonded E rootId)
  && hashOk E rootHash ids.

(** The evaluation goes all the way to line 159. *)
Definition reachesSend (E : Env) (rootId rootHash : string) (total committedAt : Z)
    (ids : option (list string)) (w : World) : bool :=
  reachesCreditCheck E rootId rootHash committedAt ids w
  && creditOk E total
  && negb (dryMode E).

(** Everything an evaluation emits before it writes the intent marker. *)
Definition preSendLog (E : Env) (rootId rootHash : string) (total dest src : Z)
    (ids : option (list string)) : list Event :=
  infoLog rootId rootHash src ++ hashLog ids
  ++ vaultEvents E dest (getBondForTransferAmount E total)
  ++ [Log Debug (MAttemptBond rootId dest)].

(** ** The poll loop, summarised *)

(** The evaluation the loop starts for an item. *)
Definition evaluationOf (E : Env) (r : UnbondedTransferRoot) : Async Exit :=
  checkTransfersCommitted E (uTransferRootId r) (uTransferRootHash r) (uTotalAmount r)
    (uDestinationChainId r) (uCommittedAt r) (uSourceChainId r) (uTransferIds r).

(** The coarse check of the loop. *)
Definition coarseShort (E : Env) (r : UnbondedTransferRoot) : bool :=
  getAvailableCreditForBond E (ethereumChainId E) <? uTotalAmount r.

Definition coarseLog (E : Env) (roots : list UnbondedTransferRoot) : list Event :=
  flat_map (fun r =>
              if coarseShort E r
              then [Log Debug (MNotEnoughCredit
                                 (getAvailableCreditForBond E (ethereumChainId E))
                                 (uTotalAmount r))]
              else []) roots.

(** ** Stores *)

(** No record names an id other than the key it is stored under. *)
Definition storeKeyed (s : Store) : Prop :=
  forall k r id, s !! k = Some r -> TransferRoot.transferRootId r = Some id -> id = k.

(** The patches this watcher writes. *)
Definition watcherPatch (p : TransferRoot.t) : Prop :=
  p = TransferRoot.patchIsNotFound true \/ exists now, p = TransferRoot.patchSentBondTxAt now.

(** A sequence of store writes, oldest first. *)
Definition applyUpdates (writes : list (string * TransferRoot.t)) (s : Store) : Store :=
  foldl (fun acc kp => storeUpdate kp.1 kp.2 acc) s writes.

(** ** Sample collaborators and stores

    Concrete values on which the statements below are run. *)

Definition sampleSlug (c : Z) : string :=
  if c =? 1 then "ethereum"
  else if c =? 10 then "optimism"
  else if c =? 42161 then "arbitrum"
  else "polygon".

(** A watcher of chain 10 for USDC, with automatic vault withdrawal
    configured for arbitrum only, a minimum bond delay of 10 seconds, a bond
    cost equal to the amount, and a root id that is the root hash itself. *)
Definition sampleEnv (dry bonded : bool) (credit vaultBal now : Z)
    (tx : TxResult) (wd : option string) : Env := {|
  chainId := 10;
  tokenSymbol := "USDC";
  dryMode := dry;
  chainIdToSlug := sampleSlug;
  ethereumChainId := 1;
  routeOk := fun _ => true;
  vault := {[ "USDC" := {[ "arbitrum" := {| autoWithdraw := Some true |} ]} ]};
  getMinTransferRootBondDelaySeconds := 10;
  isTransferRootIdBonded := fun _ => bonded;
  getBondForTransferAmount := fun a => a;
  bondTransferRoot := fun _ _ _ => tx;
  getBaseAvailableCreditIncludingVault := fun _ => credit;
  getVaultBalance := fun _ => vaultBal;
  withdrawFromVaultAndStake := fun _ _ => wd;
  getTransferRootId := fun h _ => h;
  getHexRoot := fun ids => String.concat "," ids;
  getTransferRootsFromTwoWeeks := fun s => map snd (map_to_list s);
  clock := fun _ => now
|}.

(** A root of 1000 units from chain 10 to chain 137, committed at second
    100, with the given members. *)
Definition sampleRoot (ids : option (list string)) : TransferRoot.t :=
  TransferRoot.mk (Some "0xAb,0xcd") (Some "0xAb,0xcd") (Some 1000) (Some 137) (Some 10)
    (Some 100) ids None None.

Definition sampleStore (ids : option (list string)) : Store :=
  {[ "0xAb,0xcd" := sampleRoot ids ]}.

Definition sampleWorld (ids : option (list string)) : World := blank (sampleStore ids).

(** A second root of chain 10, of 5 units, committed at second 90, with
    the given members, and the store that holds it beside the sample root. *)
Definition sampleOther (ids : option (list string)) : TransferRoot.t :=
  TransferRoot.mk (Some "0xother") (Some "0xother") (Some 5) (Some 137) (Some 10)
    (Some 90) ids None None.

Definition sampleStore2 (ids other : option (list string)) : Store :=
  <["0xother" := sampleOther other]> (sampleStore ids).

(** ** The whole evaluation, summarised *)

(** What [checkTransfersCommitted] emits when run from [w], gate by gate. *)
Definition evaluationEvents (E : Env) (rootId rootHash : string)
    (total dest committedAt src : Z) (ids : option (list string)) (w : World)
  : list Event :=
  let credit := getAvailableCreditForBond E (ethereumChainId E) in
  let bond := getBondForTransferAmount E total in
  if negb (timingOk E committedAt w) then
    [Log Debug (MTooEarly (Z.abs (clock E (ticks w) - committedAt * 1000
                                  - getMinTransferRootBondDelaySeconds E * 1000)))]
  else if isTransferRootIdBonded E rootId then
    [Log Warn MAlreadyBonded; DbUpdate rootId (TransferRoot.patchIsNotFound true)]
  else
    infoLog rootId rootHash src ++ hashLog ids
    ++ (if negb (hashOk E rootHash ids) then [Log Error MHashMismatch]
        else if negb (creditOk E total) then
          [Log Error (MNotEnoughCredit credit bond);
           Notify Error (MNotEnoughCredit credit bond)]
        else if dryMode E then [Log Warn MDrySkip]
        else sendEvents E rootId rootHash total dest bond (db w) (clock E (S (ticks w)))).

(** How it ends. *)
Definition evaluationOutcome (E : Env) (rootId rootHash : string)
    (total dest committedAt : Z) (ids : option (list string)) (w : World)
  : Outcome Exit :=
  if negb (timingOk E committedAt w) then Returned TooEarly
  else if isTransferRootIdBonded E rootId then Returned AlreadyBonded
  else if negb (hashOk E rootHash ids) then Returned HashMismatch
  else if negb (creditOk E total) then Returned NotEnoughCredit
  else if dryMode E then Returned DryRun
  else sendOutcome E rootId rootHash total dest (getBondForTransferAmount E total)
         (db w) (clock E (S (ticks w))).

(** Two records that agree on everything the watcher does not write: the
    identity of the root, its amount, its route, its commit time and its
    members. *)
Definition sameContent (r r' : TransferRoot.t) : Prop :=
  TransferRoot.transferRootId r' = TransferRoot.transferRootId r
  /\ TransferRoot.transferRootHash r' = TransferRoot.transferRootHash r
  /\ TransferRoot.totalAmount r' = TransferRoot.totalAmount r
  /\ TransferRoot.destinationChainId r' = TransferRoot.destinationChainId r
  /\ TransferRoot.sourceChainId r' = TransferRoot.sourceChainId r
  /\ TransferRoot.committedAt r' = TransferRoot.committedAt r
  /\ TransferRoot.transferIds r' = TransferRoot.transferIds r.



(** The events of the mutex. *)
Definition isLockEvent (e : Event) : bool :=
  match e with MutexAcquire | MutexRelease => true | _ => false end.

(** * Properties *)

(** ** Worlds and runs *)

Lemma logged_nil w : logged [] w = w.
Proof. destruct w; unfold logged; simpl. by rewrite app_nil_r. Qed.

Lemma logged_logged a b w : logged b (logged a w) = logged (a ++ b) w.
Proof. unfold logged; simpl. by rewrite app_assoc. Qed.

Lemma emitted_trace {A} (m : Async A) w evs :
  trace (execute m w) = trace w ++ evs -> emitted m w = evs.
Proof. unfold emitted. intros ->. apply drop_app_length. Qed.

Lemma emitted_run {A} (m : Async A) w r w' evs :
  m w = (r, w') -> trace w' = trace w ++ evs -> emitted m w = evs.
Proof. intros Hm Ht. apply emitted_trace. unfold execute. by rewrite Hm. Qed.

Lemma result_run {A} (m : Async A) w r w' : m w = (r, w') -> result m w = r.
Proof. unfold result. by intros ->. Qed.

Lemma execute_run {A} (m : Async A) w r w' : m w = (r, w') -> execute m w = w'.
Proof. unfold execute. by intros ->. Qed.

(** ** The vault *)

Lemma withdrawFromVaultIfNeeded_run E dest bond w :
  withdrawFromVaultIfNeeded E dest bond w
  = (vaultOutcome E dest bond, logged (vaultEvents E dest bond) w).
Proof.
  unfold withdrawFromVaultIfNeeded, vaultOutcome, vaultEvents.
  destruct (truthy (autoWithdrawFlag E dest)); simpl.
  - unfold runExclusive, finally, tryCatch, bind, logger, notifier,
      callWithdrawFromVaultAndStake, emit, ret, throw, execute, bind.
    destruct (_ - _ <? bond); simpl.
    + destruct (withdrawFromVaultAndStake E dest (getVaultBalance E dest));
        simpl; by rewrite !logged_logged.
    + by rewrite !logged_logged.
  - unfold ret. by rewrite logged_nil.
Qed.

(** C5. Vault ensure: with the [autoWithdraw] flag of the token and chain
    absent or false the call does nothing at all (it returns in the world it
    was called in); with the flag set, the withdraw-and-restake operation of
    the destination watcher is called, once and with the whole vault balance,
    exactly when [availableCredit - vaultBalance < bondAmount]; when the
    difference equals the bond amount, or exceeds it, it is not called. *)
Theorem withdrawFromVaultIfNeeded_strict E dest bond w :
  let availableCredit := getAvailableCreditForBond E dest in
  let vaultBalance := getVaultBalance E dest in
  let run := withdrawFromVaultIfNeeded E dest bond in
  (autoWithdrawFlag E dest = None \/ autoWithdrawFlag E dest = Some false ->
     run w = (Returned tt, w))
  /\ (autoWithdrawFlag E dest = Some true ->
        (availableCredit - vaultBalance < bond ->
           withdrawals (emitted run w) = [(dest, vaultBalance)])
        /\ (availableCredit - vaultBalance = bond -> withdrawals (emitted run w) = [])
        /\ (bond <= availableCredit - vaultBalance -> withdrawals (emitted run w) = [])).
Proof.
  intros availableCredit vaultBalance run. subst run.
  split.
  - intros Hflag. rewrite withdrawFromVaultIfNeeded_run.
    unfold vaultOutcome, vaultEvents.
    assert (truthy (autoWithdrawFlag E dest) = false) as ->
      by (destruct Hflag as [-> | ->]; reflexivity).
    simpl. by rewrite logged_nil.
  - intros Hflag.
    assert (forall evs, emitted (withdrawFromVaultIfNeeded E dest bond) w = evs
                        <-> evs = vaultEvents E dest bond) as Hev.
    { intros evs. erewrite emitted_run;
        [| apply withdrawFromVaultIfNeeded_run | reflexivity]. split; congruence. }
    pose proof (proj2 (Hev _) eq_refl) as ->.
    unfold vaultEvents. rewrite Hflag. simpl.
    fold availableCredit vaultBalance.
    repeat split; intros Hcmp.
    + assert ((availableCredit - vaultBalance <? bond) = true) as -> by lia.
      simpl. by destruct (withdrawFromVaultAndStake E dest vaultBalance).
    + assert ((availableCredit - vaultBalance <? bond) = false) as -> by lia.
      reflexivity.
    + assert ((availableCredit - vaultBalance <? bond) = false) as -> by lia.
      reflexivity.
Qed.

(** On arbitrum, where the sample configuration withdraws automatically,
    with a bond of 800: credit 1000 over a vault of 200 leaves exactly the
    bond and nothing is withdrawn; one unit less of credit and the whole
    vault is withdrawn. *)
Example vault_boundary :
  let run credit :=
    withdrawFromVaultIfNeeded (sampleEnv false false credit 200 0 (TxSent "0xtx") None)
      42161 800 in
  withdrawals (emitted (run 1000) (blank ∅)) = []
  /\ withdrawals (emitted (run 999) (blank ∅)) = [(42161, 200)].
Proof. split; vm_compute; reflexivity. Qed.

(** ** The reorg validator *)

Lemma isPreTransactionDataValid_run E h d t w :
  isPreTransactionDataValid E h d t w
  = (validation E (db w) h d t, logged (validationLog E (db w) h d t) w).
Proof.
  unfold validation, validationLog, result, execute, isPreTransactionDataValid,
    bind, getDb, blank, logger, emit, ret, throw, liftOutcome; simpl.
  destruct (bool_decide _); simpl; [| reflexivity].
  destruct (bool_decide _); simpl; [| reflexivity].
  destruct (_ ≫= TransferRoot.transferIds); simpl; [| by rewrite logged_nil].
  destruct (gatherTransferIds _ _ _); simpl; [| by rewrite logged_nil].
  destruct (forallb _ _); simpl; [by rewrite logged_nil | reflexivity].
Qed.

(** The validator, without its log lines. *)
Lemma validation_unfold E s h d t :
  validation E s h d t =
  if bool_decide (recordFound E s h t) then
    if bool_decide (destinationMatches E s h d t) then
      match targetRecord E s h t ≫= TransferRoot.transferIds with
      | None => Thrown TypeError
      | Some ids =>
          match gatherTransferIds E (getTransferRootsFromTwoWeeks E s) [] with
          | Thrown e => Thrown e
          | Returned flat =>
              Returned (forallb (fun x => (numOccurrences x flat =? 1)%nat)
                                (map toLowerCase ids))
          end
      end
    else Returned false
  else Returned false.
Proof.
  unfold validation, result, isPreTransactionDataValid, recordFound,
    destinationMatches, targetRecord,
    bind, getDb, blank, logger, emit, ret, throw, liftOutcome; simpl.
  destruct (bool_decide _); simpl; [| reflexivity].
  destruct (bool_decide _); simpl; [| reflexivity].
  destruct (_ ≫= TransferRoot.transferIds); simpl; [| reflexivity].
  destruct (gatherTransferIds _ _ _); simpl; [| reflexivity].
  by destruct (forallb _ _).
Qed.

(** The loop gathers the flattened identifiers of the records of this
    chain when each of them carries its members... *)
Lemma gatherTransferIds_present E roots acc :
  Forall (fun r => is_Some (TransferRoot.transferIds r))
         (filter (fun r => TransferRoot.sourceChainId r = Some (chainId E)) roots) ->
  gatherTransferIds E roots acc
  = Returned (acc ++ flattenIds
                       (filter (fun r => TransferRoot.sourceChainId r = Some (chainId E)) roots)).
Proof.
  revert acc. induction roots as [| r roots IH]; intros acc Hall; simpl.
  - by rewrite app_nil_r.
  - rewrite filter_cons in Hall |- *. case_bool_decide as Hsrc; simpl.
    + rewrite decide_True in Hall |- * by done.
      apply Forall_cons in Hall as [[ids Hids] Hall].
      rewrite Hids. rewrite IH by done. simpl. rewrite Hids. simpl.
      by rewrite app_assoc.
    + rewrite decide_False in Hall |- * by done. by apply IH.
Qed.

(** ... and throws as soon as one of them does not. *)
Lemma gatherTransferIds_absent E roots acc :
  ~ Forall (fun r => is_Some (TransferRoot.transferIds r))
           (filter (fun r => TransferRoot.sourceChainId r = Some (chainId E)) roots) ->
  gatherTransferIds E roots acc = Thrown TypeError.
Proof.
  revert acc. induction roots as [| r roots IH]; intros acc Hnot; simpl.
  - destruct Hnot. constructor.
  - rewrite filter_cons in Hnot. case_bool_decide as Hsrc; simpl.
    + rewrite decide_True in Hnot by done.
      destruct (TransferRoot.transferIds r) as [ids |] eqn:Hids; [| reflexivity].
      apply IH. intros Hall. apply Hnot. constructor; [by rewrite Hids | done].
    + rewrite decide_False in Hnot by done. by apply IH.
Qed.

Lemma forallb_unique flat ids :
  forallb (fun x => (numOccurrences x flat =? 1)%nat) ids = true
  <-> ~ Exists (fun x => numOccurrences x flat <> 1%nat) ids.
Proof.
  induction ids as [| x ids IH]; simpl.
  - split; [intros _ H; inversion H | done].
  - rewrite andb_true_iff, IH, Exists_cons, Nat.eqb_eq. split.
    + intros [H1 H2] [H | H]; tauto.
    + intros H. split; [| tauto].
      destruct (decide (numOccurrences x flat = 1%nat)); tauto.
Qed.

(** The validator decided by the conditions of the specification. *)
Lemma validation_spec E s h d t :
  validation E s h d t =
  if decide (recordFound E s h t /\ destinationMatches E s h d t) then
    if decide (idsPresent E s h t)
    then Returned (bool_decide (~ notUnique E s h t))
    else Thrown TypeError
  else Returned false.
Proof.
  rewrite validation_unfold.
  case_bool_decide as Hfound; [| by rewrite decide_False by tauto].
  case_bool_decide as Hdest; [| by rewrite decide_False by tauto].
  rewrite decide_True by done.
  destruct (decide (idsPresent E s h t)) as [Hp | Hp].
  - destruct Hp as [[ids Hids] Hall]. rewrite Hids.
    unfold sameChainWindow in Hall.
    rewrite gatherTransferIds_present by done. simpl.
    f_equal. apply eq_true_iff_eq.
    rewrite forallb_unique, bool_decide_eq_true.
    unfold notUnique, targetIds, sameChainWindow. by rewrite Hids.
  - destruct (targetRecord E s h t ≫= TransferRoot.transferIds) as [ids |] eqn:Hids;
      [| done].
    rewrite gatherTransferIds_absent; [done |].
    intros Hall. apply Hp. split; [by rewrite Hids | done].
Qed.

Ltac verdict_cases :=
  split; [| split]; (split; intros ?; first [discriminate | tauto | reflexivity]).

(** C2, as amended. The validator returns [false], and raises nothing,
    exactly when no record is stored under the recomputed id or the stored id
    differs from it, or the stored destination chain differs from the one
    about to be used, or - [transferIds] being present on the target record
    and on every record of the watcher's chain in the two-week window - some
    case-normalized identifier of the target occurs zero times or more than
    once among the flattened, case-normalized identifiers of those records.
    It returns [true] exactly when the record is found, the destination
    matches, those [transferIds] are present and every identifier occurs
    once. In the remaining case (record found, destination matching, a
    [transferIds] absent) it raises. *)
Theorem isPreTransactionDataValid_verdict E h d t w :
  let verdict := result (isPreTransactionDataValid E h d t) w in
  let found := recordFound E (db w) h t in
  let matching := destinationMatches E (db w) h d t in
  let present := idsPresent E (db w) h t in
  let repeated := notUnique E (db w) h t in
  (verdict = Returned false <-> ~ found \/ ~ matching \/ (present /\ repeated))
  /\ (verdict = Returned true <-> found /\ matching /\ present /\ ~ repeated)
  /\ (verdict = Thrown TypeError <-> found /\ matching /\ ~ present).
Proof.
  intros verdict found matching present repeated.
  assert (verdict = validation E (db w) h d t) as ->
    by (eapply result_run, isPreTransactionDataValid_run).
  rewrite validation_spec. fold found matching present repeated.
  destruct (decide (found /\ matching)) as [[Hf Hm] | Hno].
  - destruct (decide present) as [Hp | Hp].
    + case_bool_decide as Hr.
      * verdict_cases.
      * assert (repeated) by (destruct (decide repeated); tauto).
        verdict_cases.
    + verdict_cases.
  - assert (~ found \/ ~ matching)
      by (destruct (decide found); destruct (decide matching); tauto).
    verdict_cases.
Qed.

(** C2, as stated, fails. A stored record with the recomputed id and the
    right destination chain but no [transferIds] meets none of the three
    conditions (it has no identifier that could occur zero times or twice),
    and the validator does not return [true] on it: it raises. The same
    happens when the target record carries its members, each of them unique,
    and another record of the same chain in the window carries none. *)
Lemma isPreTransactionDataValid_not_total :
  let E := sampleEnv false false 1000 0 110001 (TxSent "0xtx") None in
  let w := sampleWorld None in
  let other := TransferRoot.mk (Some "0xother") (Some "0xother") (Some 5) (Some 137)
                 (Some 10) (Some 90) None None None in
  let w' := blank (<["0xother" := other]> (sampleStore (Some ["0xAb"; "0xcd"]))) in
  (recordFound E (db w) "0xAb,0xcd" 1000
   /\ destinationMatches E (db w) "0xAb,0xcd" 137 1000
   /\ ~ notUnique E (db w) "0xAb,0xcd" 1000
   /\ result (isPreTransactionDataValid E "0xAb,0xcd" 137 1000) w = Thrown TypeError)
  /\ (recordFound E (db w') "0xAb,0xcd" 1000
      /\ destinationMatches E (db w') "0xAb,0xcd" 137 1000
      /\ ~ notUnique E (db w') "0xAb,0xcd" 1000
      /\ result (isPreTransactionDataValid E "0xAb,0xcd" 137 1000) w' = Thrown TypeError).
Proof.
  split.
  - repeat split; try (vm_compute; reflexivity).
    intros H. apply Exists_exists in H as (x & Hx & _).
    vm_compute in Hx. inversion Hx.
  - repeat split; try (vm_compute; reflexivity).
    intros H. apply (bool_decide_pack _) in H. vm_compute in H. exact H.
Qed.

(** C10. When the record fetched under the recomputed id exists with that
    id and with the destination chain about to be used, an absent
    [transferIds] on it makes the validator raise (instead of returning
    [false]); and the validator returns a boolean exactly when [transferIds]
    is present on the target record and on every record of the watcher's
    chain in the two-week window. *)
Theorem isPreTransactionDataValid_raises E h d t w :
  recordFound E (db w) h t ->
  destinationMatches E (db w) h d t ->
  let verdict := result (isPreTransactionDataValid E h d t) w in
  (targetRecord E (db w) h t ≫= TransferRoot.transferIds = None ->
     verdict = Thrown TypeError)
  /\ ((exists b, verdict = Returned b) <-> idsPresent E (db w) h t)
  /\ (~ idsPresent E (db w) h t -> verdict = Thrown TypeError).
Proof.
  intros Hf Hm verdict.
  assert (verdict = validation E (db w) h d t) as ->
    by (eapply result_run, isPreTransactionDataValid_run).
  rewrite validation_spec, decide_True by done.
  destruct (decide (idsPresent E (db w) h t)) as [Hp | Hp].
  - split; [| split].
    + intros Hnone. destruct Hp as [[ids Hids] _]. congruence.
    + split; [done | eauto].
    + tauto.
  - split; [done | split; [| done]].
    split; [intros [b Hb]; discriminate | tauto].
Qed.

(** The theorem at the stored record without [transferIds]. *)
Lemma isPreTransactionDataValid_raises_witness :
  result (isPreTransactionDataValid
            (sampleEnv false false 1000 0 110001 (TxSent "0xtx") None)
            "0xAb,0xcd" 137 1000)
         (sampleWorld None)
  = Thrown TypeError.
Proof.
  refine (proj1 (isPreTransactionDataValid_raises
                   (sampleEnv false false 1000 0 110001 (TxSent "0xtx") None)
                   "0xAb,0xcd" 137 1000 (sampleWorld None) _ _) _);
    vm_compute; reflexivity.
Defined.

(** ** The phases of an evaluation *)

Lemma transmitPhase_run E h t d w :
  transmitPhase E h t d w
  = (transmitOutcome E (db w) h t d, logged (transmitEvents E (db w) h t d) w).
Proof.
  unfold transmitPhase, sendBondTransferRoot, tryCatch, bind.
  rewrite isPreTransactionDataValid_run.
  unfold transmitOutcome, transmitEvents.
  destruct (validation E (db w) h d t) as [[|] | e]; simpl.
  - unfold callBondTransferRoot, bind, emit, logger, notifier, emit, ret, throw.
    destruct (bondTransferRoot E h d t); simpl; by rewrite !logged_logged.
  - unfold throw, bind, logger, emit. simpl. by rewrite !logged_logged.
  - unfold throw, bind, logger, emit. simpl. by rewrite !logged_logged.
Qed.

Lemma stored_logged id p evs w :
  logged evs (stored id p w) = {| db := storeUpdate id p (db w);
                                  trace := trace w ++ DbUpdate id p :: evs;
                                  ticks := ticks w |}.
Proof. unfold logged, stored; simpl. by rewrite <- app_assoc. Qed.

Lemma bondPhase_run E id h t d bond w :
  bondPhase E id h t d bond w
  = (sendOutcome E id h t d bond (db w) (clock E (ticks w)),
     {| db := match vaultOutcome E d bond with
              | Returned _ =>
                  storeUpdate id (TransferRoot.patchSentBondTxAt (clock E (ticks w))) (db w)
              | Thrown _ => db w
              end;
        trace := trace w ++ sendEvents E id h t d bond (db w) (clock E (ticks w));
        ticks := match vaultOutcome E d bond with
                 | Returned _ => S (ticks w)
                 | Thrown _ => ticks w
                 end |}).
Proof.
  unfold bondPhase, bind. rewrite withdrawFromVaultIfNeeded_run.
  unfold sendOutcome, sendEvents.
  destruct (vaultOutcome E d bond) as [[] | e]; simpl.
  - rewrite transmitPhase_run. simpl. f_equal.
    unfold logged; simpl. f_equal.
    rewrite <- !app_assoc. reflexivity.
  - by rewrite app_nil_r.
Qed.

Lemma creditPhase_run E id h t d w :
  creditPhase E id h t d w =
  let credit := getAvailableCreditForBond E (ethereumChainId E) in
  let bond := getBondForTransferAmount E t in
  if credit <? bond then
    (Returned NotEnoughCredit,
     logged [Log Error (MNotEnoughCredit credit bond);
             Notify Error (MNotEnoughCredit credit bond)] w)
  else if dryMode E then (Returned DryRun, logged [Log Warn MDrySkip] w)
  else bondPhase E id h t d bond w.
Proof.
  unfold creditPhase; simpl.
  destruct (_ <? _).
  - unfold bind, logger, notifier, emit, ret. by rewrite logged_logged.
  - by destruct (dryMode E).
Qed.

Lemma hashPhase_run E id h t d ids w :
  hashPhase E id h t d ids w =
  if hashOk E h ids
  then creditPhase E id h t d (logged (hashLog ids) w)
  else (Returned HashMismatch, logged (hashLog ids ++ [Log Error MHashMismatch]) w).
Proof.
  unfold hashPhase, hashOk, hashLog, bind, logger, emit; simpl.
  destruct (0 <? length (default [] ids))%nat; simpl; [| reflexivity].
  destruct (String.eqb _ h); simpl; by rewrite ?logged_logged.
Qed.

Lemma bondedPhase_run E id h t d c src ids w :
  bondedPhase E id h t d c src ids w =
  if isTransferRootIdBonded E id
  then (Returned AlreadyBonded,
        stored id (TransferRoot.patchIsNotFound true) (logged [Log Warn MAlreadyBonded] w))
  else hashPhase E id h t d ids (logged (infoLog id h src) w).
Proof.
  unfold bondedPhase, bind, logger, emit, update, ret; simpl.
  destruct (isTransferRootIdBonded E id); [reflexivity |].
  by rewrite !logged_logged.
Qed.

Lemma checkTransfersCommitted_run E id h t d c src ids w :
  checkTransfersCommitted E id h t d c src ids w =
  let delta := clock E (ticks w) - c * 1000 - getMinTransferRootBondDelaySeconds E * 1000 in
  if timingOk E c w
  then bondedPhase E id h t d c src ids (ticked w)
  else (Returned TooEarly, logged [Log Debug (MTooEarly (Z.abs delta))] (ticked w)).
Proof.
  unfold checkTransfersCommitted, timingOk, bind, dateNow; simpl.
  by destruct (_ >? 0).
Qed.

(** ** What the phases emit *)

Lemma validationLog_cases E s h d t :
  validationLog E s h d t = [] \/ exists m, validationLog E s h d t = [Log Error m].
Proof.
  unfold validationLog, execute, isPreTransactionDataValid,
    bind, getDb, blank, logger, emit, ret, throw, liftOutcome; simpl.
  destruct (bool_decide _); simpl; [| eauto].
  destruct (bool_decide _); simpl; [| eauto].
  destruct (_ ≫= TransferRoot.transferIds); simpl; [| eauto].
  destruct (gatherTransferIds _ _ _); simpl; [| eauto].
  destruct (forallb _ _); simpl; eauto.
Qed.

Lemma validationLog_quiet E s h d t :
  bondTxs (validationLog E s h d t) = []
  /\ dbUpdates (validationLog E s h d t) = []
  /\ notifications (validationLog E s h d t) = []
  /\ withdrawals (validationLog E s h d t) = [].
Proof. destruct (validationLog_cases E s h d t) as [-> | [m ->]]; done. Qed.

Lemma vaultEvents_quiet E d bond :
  bondTxs (vaultEvents E d bond) = [] /\ dbUpdates (vaultEvents E d bond) = [].
Proof.
  unfold vaultEvents. destruct (truthy _); [| done].
  destruct (_ <? bond); [| done].
  by destruct (withdrawFromVaultAndStake _ _ _).
Qed.

Lemma hashLog_quiet ids :
  bondTxs (hashLog ids) = [] /\ dbUpdates (hashLog ids) = []
  /\ notifications (hashLog ids) = [] /\ withdrawals (hashLog ids) = [].
Proof. unfold hashLog. by destruct (0 <? _)%nat. Qed.

Lemma bondTxs_app a b : bondTxs (a ++ b) = bondTxs a ++ bondTxs b.
Proof. apply omap_app. Qed.

Lemma dbUpdates_app a b : dbUpdates (a ++ b) = dbUpdates a ++ dbUpdates b.
Proof. apply omap_app. Qed.

Lemma withdrawals_app a b : withdrawals (a ++ b) = withdrawals a ++ withdrawals b.
Proof. apply omap_app. Qed.

Lemma notifications_app a b : notifications (a ++ b) = notifications a ++ notifications b.
Proof. apply omap_app. Qed.

Lemma In_dbUpdates k p evs : In (DbUpdate k p) evs -> In (k, p) (dbUpdates evs).
Proof.
  intros Hin. apply list_elem_of_In, list_elem_of_omap.
  exists (DbUpdate k p). split; [by apply list_elem_of_In | done].
Qed.

(** The dispatches the guarded transmission makes. *)
Lemma bondTxs_transmitEvents E s h t d :
  bondTxs (transmitEvents E s h t d)
  = match validation E s h d t with
    | Returned true => [(h, d, t)]
    | _ => []
    end.
Proof.
  unfold transmitEvents. rewrite bondTxs_app.
  destruct (validationLog_quiet E s h d t) as (-> & _).
  destruct (validation E s h d t) as [[|] | e]; simpl; [| done | done].
  by destruct (bondTransferRoot E h d t).
Qed.

(** ** The exits of the phases *)

Lemma bondPhase_exit E id h t d bond w x :
  result (bondPhase E id h t d bond) w = Returned x -> x = Sent.
Proof.
  erewrite result_run by apply bondPhase_run.
  unfold sendOutcome, transmitOutcome.
  destruct (vaultOutcome E d bond); [| discriminate].
  destruct (validation _ _ _ _ _) as [[|] | e]; try discriminate.
  destruct (bondTransferRoot E h d t); [congruence | discriminate].
Qed.

Lemma creditPhase_exit E id h t d w x :
  result (creditPhase E id h t d) w = Returned x ->
  x = NotEnoughCredit \/ x = DryRun \/ x = Sent.
Proof.
  unfold result. rewrite creditPhase_run. simpl.
  destruct (_ <? _); [simpl; intros [= <-]; tauto |].
  destruct (dryMode E); [simpl; intros [= <-]; tauto |].
  intros H. apply bondPhase_exit in H. tauto.
Qed.

Lemma bondedPhase_exit E id h t d c src ids w :
  result (bondedPhase E id h t d c src ids) w <> Returned TooEarly.
Proof.
  unfold result. rewrite bondedPhase_run.
  destruct (isTransferRootIdBonded E id); [discriminate |].
  rewrite hashPhase_run. destruct (hashOk E h ids); [| discriminate].
  intros H. apply creditPhase_exit in H as [H | [H | H]]; discriminate.
Qed.

(** ** How far an evaluation goes *)

Lemma checkTransfersCommitted_credit E id h t d c src ids w :
  reachesCreditCheck E id h c ids w = true ->
  checkTransfersCommitted E id h t d c src ids w
  = creditPhase E id h t d (logged (infoLog id h src ++ hashLog ids) (ticked w)).
Proof.
  unfold reachesCreditCheck. rewrite !andb_true_iff, negb_true_iff.
  intros [[Htime Hbonded] Hhash].
  rewrite checkTransfersCommitted_run. simpl. rewrite Htime.
  rewrite bondedPhase_run, Hbonded, hashPhase_run, Hhash.
  by rewrite logged_logged.
Qed.

Lemma checkTransfersCommitted_send E id h t d c src ids w :
  reachesSend E id h t c ids w = true ->
  checkTransfersCommitted E id h t d c src ids w
  = bondPhase E id h t d (getBondForTransferAmount E t)
      (logged (infoLog id h src ++ hashLog ids) (ticked w)).
Proof.
  unfold reachesSend, creditOk. rewrite !andb_true_iff, !negb_true_iff.
  intros [[Hreach Hcredit] Hdry].
  rewrite checkTransfersCommitted_credit by done.
  rewrite creditPhase_run. simpl. by rewrite Hcredit, Hdry.
Qed.

(** An evaluation that stops short of line 159 sends nothing, withdraws
    nothing, and writes at most the [isNotFound] flag. *)
Lemma checkTransfersCommitted_stop E id h t d c src ids w :
  reachesSend E id h t c ids w = false ->
  exists exit evs w',
    checkTransfersCommitted E id h t d c src ids w = (Returned exit, w')
    /\ trace w' = trace w ++ evs
    /\ exit <> Sent
    /\ bondTxs evs = [] /\ withdrawals evs = []
    /\ Forall (fun kp => kp.2 = TransferRoot.patchIsNotFound true) (dbUpdates evs).
Proof.
  intros Hstop.
  rewrite checkTransfersCommitted_run. simpl.
  destruct (timingOk E c w) eqn:Htime.
  2: { eexists _, _, _. split; [reflexivity |]. simpl. repeat split; done. }
  rewrite bondedPhase_run.
  destruct (isTransferRootIdBonded E id) eqn:Hbonded.
  { eexists _, _, _. split; [reflexivity |]. simpl. rewrite <- app_assoc. simpl.
    split; [reflexivity |]. repeat split; try done. by repeat constructor. }
  rewrite hashPhase_run.
  destruct (hashLog_quiet ids) as (Hq1 & Hq2 & Hq3 & Hq4).
  destruct (hashOk E h ids) eqn:Hhash.
  2: { eexists _, (infoLog id h src ++ hashLog ids ++ [Log Error MHashMismatch]), _.
       split; [reflexivity |]. cbn [trace logged ticked]. rewrite <- !app_assoc.
       split; [reflexivity |]. split; [done |].
       rewrite !bondTxs_app, !withdrawals_app, !dbUpdates_app, Hq1, Hq2, Hq4.
       repeat split; done. }
  rewrite creditPhase_run. simpl.
  destruct (_ <? _) eqn:Hcredit.
  { eexists _, (infoLog id h src ++ hashLog ids ++ [_; _]), _.
    split; [reflexivity |]. cbn [trace logged ticked]. rewrite <- !app_assoc.
    split; [reflexivity |]. split; [done |].
    rewrite !bondTxs_app, !withdrawals_app, !dbUpdates_app, Hq1, Hq2, Hq4.
    repeat split; done. }
  destruct (dryMode E) eqn:Hdry.
  { eexists _, (infoLog id h src ++ hashLog ids ++ [_]), _.
    split; [reflexivity |]. cbn [trace logged ticked]. rewrite <- !app_assoc.
    split; [reflexivity |]. split; [done |].
    rewrite !bondTxs_app, !withdrawals_app, !dbUpdates_app, Hq1, Hq2, Hq4.
    repeat split; done. }
  exfalso. revert Hstop.
  unfold reachesSend, reachesCreditCheck, creditOk.
  by rewrite Htime, Hbonded, Hhash, Hcredit, Hdry.
Qed.

(** An evaluation that reaches line 159 emits the log lines of the gates and
    then what the send phase emits, run on the store it started with at the
    second reading of the clock. *)
Lemma checkTransfersCommitted_send_trace E id h t d c src ids w :
  reachesSend E id h t c ids w = true ->
  let run := checkTransfersCommitted E id h t d c src ids in
  let bond := getBondForTransferAmount E t in
  emitted run w
  = infoLog id h src ++ hashLog ids
    ++ sendEvents E id h t d bond (db w) (clock E (S (ticks w)))
  /\ result run w = sendOutcome E id h t d bond (db w) (clock E (S (ticks w))).
Proof.
  intros Hsend run bond. subst run.
  pose proof (checkTransfersCommitted_send E id h t d c src ids w Hsend) as Hrun.
  rewrite bondPhase_run in Hrun. simpl in Hrun. split.
  - eapply emitted_run; [exact Hrun |]. simpl. by rewrite <- !app_assoc.
  - eapply result_run. exact Hrun.
Qed.

(** ** The timing gate *)

Lemma timingOk_spec E c w :
  timingOk E c w = true
  <-> (c + getMinTransferRootBondDelaySeconds E) * 1000 < clock E (ticks w).
Proof. unfold timingOk. rewrite Z.gtb_ltb, Z.ltb_lt. lia. Qed.

(** C1, as amended. With [committedAt = T] and a minimum delay of [D]
    seconds, an evaluation whose clock reads at most [(T + D) * 1000]
    milliseconds - any time up to and including [T + D] - aborts as too
    early: it logs the remaining wait at debug level and does nothing else.
    An evaluation whose clock reads more than that goes past the gate, on to
    the remote bonded check, and never ends as too early. *)
Theorem timing_gate_boundary E id h t d c src ids w :
  let now := clock E (ticks w) in
  let release := (c + getMinTransferRootBondDelaySeconds E) * 1000 in
  let run := checkTransfersCommitted E id h t d c src ids in
  (now <= release ->
     run w = (Returned TooEarly, logged [Log Debug (MTooEarly (release - now))] (ticked w)))
  /\ (release < now ->
        run w = bondedPhase E id h t d c src ids (ticked w)
        /\ result run w <> Returned TooEarly)
  /\ (result run w = Returned TooEarly <-> now <= release).
Proof.
  intros now release run. subst run.
  pose proof (timingOk_spec E c w) as Hspec. fold now release in Hspec.
  pose proof (checkTransfersCommitted_run E id h t d c src ids w) as Hrun.
  simpl in Hrun. fold now in Hrun.
  assert (release < now ->
          checkTransfersCommitted E id h t d c src ids w
          = bondedPhase E id h t d c src ids (ticked w)
          /\ result (checkTransfersCommitted E id h t d c src ids) w <> Returned TooEarly)
    as Hopen.
  { intros Hlt. apply Hspec in Hlt. rewrite Hlt in Hrun. split; [done |].
    unfold result. rewrite Hrun. apply bondedPhase_exit. }
  assert (now <= release ->
          checkTransfersCommitted E id h t d c src ids w
          = (Returned TooEarly, logged [Log Debug (MTooEarly (release - now))] (ticked w)))
    as Hclosed.
  { intros Hle. destruct (timingOk E c w) eqn:Htime; [pose proof (proj1 Hspec eq_refl); lia |].
    rewrite Hrun.
    replace (Z.abs (now - c * 1000 - getMinTransferRootBondDelaySeconds E * 1000))
      with (release - now) by (unfold release; lia).
    reflexivity. }
  split; [done |]. split; [done |]. split.
  - intros Hearly. destruct (Z.le_gt_cases now release) as [? | Hlt]; [done |].
    by destruct (Hopen Hlt) as [_ []].
  - intros Hle. unfold result. by rewrite Hclosed.
Qed.

(** C1, as stated, fails at the boundary: an evaluation at exactly
    [T + D] (here T = 100 s, D = 10 s, the clock reading 110000 ms) aborts as
    too early, with zero milliseconds left to wait. *)
Lemma timing_gate_closed_at_release_time :
  let E := sampleEnv false false 1000 0 ((100 + 10) * 1000) (TxSent "0xtx") None in
  let w := sampleWorld (Some ["0xAb"; "0xcd"]) in
  clock E (ticks w) = (100 + getMinTransferRootBondDelaySeconds E) * 1000
  /\ checkTransfersCommitted E "0xAb,0xcd" "0xAb,0xcd" 1000 137 100 10
       (Some ["0xAb"; "0xcd"]) w
     = (Returned TooEarly, logged [Log Debug (MTooEarly 0)] (ticked w)).
Proof. split; vm_compute; reflexivity. Qed.

(** ** The precise credit check *)

(** C4. In an evaluation that comes to the precise credit check, the exit
    is "not enough credit" exactly when the available credit is strictly
    below the bond required for the amount; the abort is logged and notified
    and leaves the store as it was. Credit equal to the required bond passes;
    credit one unit below it fails. *)
Theorem precise_credit_check_strict E id h t d c src ids w :
  reachesCreditCheck E id h c ids w = true ->
  let availableCredit := getAvailableCreditForBond E (ethereumChainId E) in
  let bondAmount := getBondForTransferAmount E t in
  let run := checkTransfersCommitted E id h t d c src ids in
  (result run w = Returned NotEnoughCredit <-> availableCredit < bondAmount)
  /\ (availableCredit = bondAmount -> result run w <> Returned NotEnoughCredit)
  /\ (availableCredit = bondAmount - 1 -> result run w = Returned NotEnoughCredit)
  /\ (availableCredit < bondAmount ->
        emitted run w
        = infoLog id h src ++ hashLog ids
          ++ [Log Error (MNotEnoughCredit availableCredit bondAmount);
              Notify Error (MNotEnoughCredit availableCredit bondAmount)]
        /\ db (execute run w) = db w).
Proof.
  intros Hreach availableCredit bondAmount run. subst run.
  pose proof (checkTransfersCommitted_credit E id h t d c src ids w Hreach) as Hrun.
  rewrite creditPhase_run in Hrun. simpl in Hrun.
  fold availableCredit bondAmount in Hrun.
  assert (result (checkTransfersCommitted E id h t d c src ids) w = Returned NotEnoughCredit
          <-> availableCredit < bondAmount) as Hiff.
  { destruct (Z.ltb_spec availableCredit bondAmount) as [Hlt | Hge].
    - split; [done |]. intros _. eapply result_run. exact Hrun.
    - split; [| lia]. intros Hexit. exfalso.
      destruct (dryMode E).
      + erewrite result_run in Hexit by exact Hrun. discriminate.
      + unfold result in Hexit. rewrite Hrun in Hexit.
        apply bondPhase_exit in Hexit. discriminate. }
  split; [done |]. split; [| split].
  - intros Heq Hexit. apply Hiff in Hexit. lia.
  - intros Heq. apply Hiff. lia.
  - intros Hlt. apply Z.ltb_lt in Hlt. rewrite Hlt in Hrun. split.
    + eapply emitted_run; [exact Hrun |]. cbn [trace logged ticked].
      by rewrite <- !app_assoc.
    + erewrite execute_run by exact Hrun. reflexivity.
Qed.

(** The theorem on a root of 1000 units with 999 units of credit. *)
Lemma precise_credit_check_strict_witness :
  result (checkTransfersCommitted
            (sampleEnv false false 999 0 110001 (TxSent "0xtx") None)
            "0xAb,0xcd" "0xAb,0xcd" 1000 137 100 10 (Some ["0xAb"; "0xcd"]))
         (sampleWorld (Some ["0xAb"; "0xcd"]))
  = Returned NotEnoughCredit.
Proof.
  refine (proj1 (proj2 (proj2 (precise_credit_check_strict
                   (sampleEnv false false 999 0 110001 (TxSent "0xtx") None)
                   "0xAb,0xcd" "0xAb,0xcd" 1000 137 100 10 (Some ["0xAb"; "0xcd"])
                   (sampleWorld (Some ["0xAb"; "0xcd"])) _))) _);
    vm_compute; reflexivity.
Defined.

(** ** Dry mode *)

(** C9. In simulate-only mode no evaluation withdraws from the vault,
    writes [sentBondTxAt] or dispatches a bonding transaction; and an
    evaluation that passes the precise credit check ends right there, as a
    dry run, having written one warning to the log and nothing to the
    store. *)
Theorem dry_mode_stops_before_vault E id h t d c src ids w :
  dryMode E = true ->
  let run := checkTransfersCommitted E id h t d c src ids in
  let evs := emitted run w in
  withdrawals evs = []
  /\ bondTxs evs = []
  /\ (forall k p, In (DbUpdate k p) evs -> TransferRoot.sentBondTxAt p = None)
  /\ (reachesCreditCheck E id h c ids w = true -> creditOk E t = true ->
        result run w = Returned DryRun
        /\ evs = infoLog id h src ++ hashLog ids ++ [Log Warn MDrySkip]
        /\ db (execute run w) = db w).
Proof.
  intros Hdry run evs. subst evs run.
  assert (reachesSend E id h t c ids w = false) as Hstop
    by (unfold reachesSend; rewrite Hdry; apply andb_false_r).
  destruct (checkTransfersCommitted_stop E id h t d c src ids w Hstop)
    as (exit & evs & w' & Hrun & Htrace & _ & Hbond & Hwd & Hdb).
  rewrite (emitted_run _ _ _ _ _ Hrun Htrace).
  split; [done |]. split; [done |]. split.
  - intros k p Hin. apply In_dbUpdates in Hin.
    rewrite Forall_forall in Hdb. apply list_elem_of_In in Hin.
    apply Hdb in Hin. simpl in Hin. by subst p.
  - intros Hreach Hcredit.
    pose proof (checkTransfersCommitted_credit E id h t d c src ids w Hreach) as Hrun'.
    rewrite creditPhase_run in Hrun'. cbv zeta in Hrun'.
    unfold creditOk in Hcredit. apply negb_true_iff in Hcredit.
    rewrite Hcredit, Hdry in Hrun'.
    split; [by eapply result_run |]. split.
    + rewrite <- (emitted_run _ _ _ _ _ Hrun Htrace).
      eapply emitted_run; [exact Hrun' |].
      cbn [trace logged ticked]. by rewrite <- !app_assoc.
    + erewrite execute_run by exact Hrun'. reflexivity.
Qed.

(** The theorem on a dry watcher with enough credit. *)
Lemma dry_mode_stops_before_vault_witness :
  let E := sampleEnv true false 1000 200 110001 (TxSent "0xtx") None in
  let run := checkTransfersCommitted E "0xAb,0xcd" "0xAb,0xcd" 1000 42161 100 10
               (Some ["0xAb"; "0xcd"]) in
  withdrawals (emitted run (sampleWorld (Some ["0xAb"; "0xcd"]))) = []
  /\ bondTxs (emitted run (sampleWorld (Some ["0xAb"; "0xcd"]))) = [].
Proof.
  pose proof (dry_mode_stops_before_vault
                (sampleEnv true false 1000 200 110001 (TxSent "0xtx") None)
                "0xAb,0xcd" "0xAb,0xcd" 1000 42161 100 10 (Some ["0xAb"; "0xcd"])
                (sampleWorld (Some ["0xAb"; "0xcd"])) eq_refl) as (Hw & Hb & _).
  split; [exact Hw | exact Hb].
Defined.

(** ** The send phase *)

Lemma preSendLog_quiet E id h t d src ids :
  bondTxs (preSendLog E id h t d src ids) = []
  /\ dbUpdates (preSendLog E id h t d src ids) = [].
Proof.
  unfold preSendLog.
  rewrite !bondTxs_app, !dbUpdates_app.
  destruct (hashLog_quiet ids) as (-> & -> & _).
  by destruct (vaultEvents_quiet E d (getBondForTransferAmount E t)) as (-> & ->).
Qed.

(** An evaluation either writes no intent marker and dispatches nothing, or
    writes the marker and goes on with the guarded transmission, run on the
    store as the marker left it. *)
Lemma checkTransfersCommitted_shape E id h t d c src ids w :
  let run := checkTransfersCommitted E id h t d c src ids in
  let evs := emitted run w in
  let now := clock E (S (ticks w)) in
  let marker := DbUpdate id (TransferRoot.patchSentBondTxAt now) in
  let s1 := storeUpdate id (TransferRoot.patchSentBondTxAt now) (db w) in
  (bondTxs evs = [] /\ ~ In marker evs)
  \/ (evs = preSendLog E id h t d src ids ++ marker :: transmitEvents E s1 h t d
      /\ result run w = transmitOutcome E s1 h t d).
Proof.
  intros run evs now marker s1. subst run evs.
  destruct (reachesSend E id h t c ids w) eqn:Hsend.
  - destruct (checkTransfersCommitted_send_trace E id h t d c src ids w Hsend)
      as [Hevs Hres].
    rewrite Hevs, Hres. unfold sendEvents, sendOutcome.
    destruct (vaultOutcome E d (getBondForTransferAmount E t)) as [[] | e] eqn:Hvault.
    + right. split; [| reflexivity].
      unfold preSendLog. rewrite <- !app_assoc. reflexivity.
    + left. rewrite app_nil_r, app_assoc.
      rewrite !bondTxs_app.
      destruct (hashLog_quiet ids) as (Hq1 & Hq2 & _).
      destruct (vaultEvents_quiet E d (getBondForTransferAmount E t)) as (Hv1 & Hv2).
      rewrite Hq1, Hv1. split; [done |].
      intros Hin. apply In_dbUpdates in Hin.
      rewrite !dbUpdates_app, Hq2, Hv2 in Hin. destruct Hin.
  - destruct (checkTransfersCommitted_stop E id h t d c src ids w Hsend)
      as (exit & evs & w' & Hrun & Htrace & _ & Hbond & _ & Hdb).
    left. rewrite (emitted_run _ _ _ _ _ Hrun Htrace). split; [done |].
    intros Hin. apply In_dbUpdates, list_elem_of_In in Hin.
    rewrite Forall_forall in Hdb. apply Hdb in Hin. discriminate.
Qed.

(** C3. In every evaluation, a bonding transaction is dispatched at most
    once, for the root under evaluation, and only after [sentBondTxAt] has
    been written to the store: the write comes strictly earlier in the trace,
    no other store write lies between the two, and the reorg validation, run
    on the store as that write left it, has returned [true]. When the marker
    has been written and that validation returns [false], the evaluation ends
    with the reorg error and no transaction is dispatched; when it returns
    [true] the transaction is dispatched. An evaluation that passes every
    gate and the vault step does write the marker. *)
Theorem sentBondTxAt_precedes_dispatch E id h t d c src ids w :
  let run := checkTransfersCommitted E id h t d c src ids in
  let evs := emitted run w in
  let now := clock E (S (ticks w)) in
  let marker := DbUpdate id (TransferRoot.patchSentBondTxAt now) in
  let verdict :=
    validation E (storeUpdate id (TransferRoot.patchSentBondTxAt now) (db w)) h d t in
  (bondTxs evs <> [] ->
     verdict = Returned true
     /\ exists l1 l2 l3,
          evs = l1 ++ marker :: l2 ++ BondTransferRoot h d t :: l3
          /\ bondTxs l1 = [] /\ dbUpdates l1 = []
          /\ bondTxs l2 = [] /\ dbUpdates l2 = []
          /\ bondTxs l3 = [] /\ dbUpdates l3 = [])
  /\ (In marker evs -> verdict = Returned false ->
        result run w = Thrown ReorgDetected /\ bondTxs evs = [])
  /\ (In marker evs -> verdict = Returned true -> bondTxs evs = [(h, d, t)])
  /\ (reachesSend E id h t c ids w = true ->
      vaultOutcome E d (getBondForTransferAmount E t) = Returned tt ->
      In marker evs).
Proof.
  intros run evs now marker verdict.
  assert (reachesSend E id h t c ids w = true ->
          vaultOutcome E d (getBondForTransferAmount E t) = Returned tt ->
          In marker evs) as Hwritten.
  { intros Hsend Hvault. subst evs run.
    destruct (checkTransfersCommitted_send_trace E id h t d c src ids w Hsend)
      as [-> _].
    unfold sendEvents. rewrite Hvault.
    do 3 (apply in_or_app; right). right. by left. }
  enough ((bondTxs evs <> [] ->
           verdict = Returned true
           /\ exists l1 l2 l3,
                evs = l1 ++ marker :: l2 ++ BondTransferRoot h d t :: l3
                /\ bondTxs l1 = [] /\ dbUpdates l1 = []
                /\ bondTxs l2 = [] /\ dbUpdates l2 = []
                /\ bondTxs l3 = [] /\ dbUpdates l3 = [])
          /\ (In marker evs -> verdict = Returned false ->
                result run w = Thrown ReorgDetected /\ bondTxs evs = [])
          /\ (In marker evs -> verdict = Returned true -> bondTxs evs = [(h, d, t)]))
    as (H1 & H2 & H3) by done.
  clear Hwritten.
  destruct (checkTransfersCommitted_shape E id h t d c src ids w)
    as [[Hnone Hnomark] | [Hevs Hres]];
    fold run evs now marker in Hnone, Hnomark || fold run evs now marker in Hevs, Hres.
  - split; [done |]. split; intros Hin; by destruct Hnomark.
  - destruct (preSendLog_quiet E id h t d src ids) as (Hp1 & Hp2).
    assert (bondTxs evs = match verdict with Returned true => [(h, d, t)] | _ => [] end)
      as Htxs.
    { rewrite Hevs, bondTxs_app, Hp1. simpl. apply bondTxs_transmitEvents. }
    split; [| split].
    + intros Hne. rewrite Htxs in Hne.
      destruct verdict as [[|] | e] eqn:Hv; try done.
      split; [done |].
      destruct (validationLog_quiet E
                  (storeUpdate id (TransferRoot.patchSentBondTxAt now) (db w)) h d t)
        as (Hl1 & Hl2 & _).
      eexists (preSendLog E id h t d src ids), _, _. split.
      * rewrite Hevs. unfold transmitEvents. fold verdict. rewrite Hv. reflexivity.
      * repeat split; try done.
        all: by destruct (bondTransferRoot E h d t).
    + intros _ Hv. rewrite Hres, Htxs. unfold transmitOutcome. fold verdict.
      by rewrite Hv.
    + intros _ Hv. by rewrite Htxs, Hv.
Qed.

(** A run that sends: the marker is written, the validator passes, the
    transaction goes out, and the success is logged and notified. *)
Example bond_sent_after_marker :
  let E := sampleEnv false false 1000 0 110001 (TxSent "0xtx") None in
  let run := checkTransfersCommitted E "0xAb,0xcd" "0xAb,0xcd" 1000 137 100 10
               (Some ["0xAb"; "0xcd"]) in
  let w := sampleWorld (Some ["0xAb"; "0xcd"]) in
  result run w = Returned Sent
  /\ drop 10 (emitted run w)
     = [Log Debug (MAttemptBond "0xAb,0xcd" 137);
        DbUpdate "0xAb,0xcd" (TransferRoot.patchSentBondTxAt 110001);
        BondTransferRoot "0xAb,0xcd" 137 1000;
        Log Info (MBondSent 137 "0xtx" "0xAb,0xcd");
        Notify Info (MBondSent 137 "0xtx" "0xAb,0xcd")]
  /\ db (execute run w) !! "0xAb,0xcd" ≫= TransferRoot.sentBondTxAt = Some 110001.
Proof. repeat split; vm_compute; reflexivity. Qed.

(** A run that detects a reorg: another stored root claims a member of the
    root under evaluation, the validator fails after the marker is written,
    and nothing is dispatched. *)
Example reorg_detected_after_marker :
  let E := sampleEnv false false 1000 0 110001 (TxSent "0xtx") None in
  let run := checkTransfersCommitted E "0xAb,0xcd" "0xAb,0xcd" 1000 137 100 10
               (Some ["0xAb"; "0xcd"]) in
  let other := TransferRoot.mk (Some "0xother") (Some "0xother") (Some 5) (Some 137)
                 (Some 10) (Some 90) (Some ["0xAB"]) None None in
  let w := blank (<["0xother" := other]> (sampleStore (Some ["0xAb"; "0xcd"]))) in
  result run w = Thrown ReorgDetected
  /\ drop 10 (emitted run w)
     = [Log Debug (MAttemptBond "0xAb,0xcd" 137);
        DbUpdate "0xAb,0xcd" (TransferRoot.patchSentBondTxAt 110001);
        Log Error (MNotUnique ["0xab"; "0xcd"]);
        Log Error (MSendError "Possible reorg detected. bondTransferRoot tx not sent")].
Proof. repeat split; vm_compute; reflexivity. Qed.

(** C8, as amended. When the bonding transaction is dispatched and the
    dispatch fails, the evaluation logs the failure at error level and
    rethrows the error to its caller; the failed dispatch is the only one of
    the evaluation, and the error log line is the last thing the evaluation
    emits: it makes no call to the notifier for the failure. *)
Theorem failed_dispatch_is_logged_and_rethrown E id h t d c src ids w reason :
  let run := checkTransfersCommitted E id h t d c src ids in
  let evs := emitted run w in
  bondTxs evs <> [] ->
  bondTransferRoot E h d t = TxRejected reason ->
  result run w = Thrown (RemoteFailure reason)
  /\ exists pre,
       evs = pre ++ [BondTransferRoot h d t; Log Error (MSendError reason)]
       /\ bondTxs pre = [].
Proof.
  intros run evs Hne Hreject.
  destruct (checkTransfersCommitted_shape E id h t d c src ids w)
    as [[Hnone _] | [Hevs Hres]];
    fold run evs in Hnone || fold run evs in Hevs, Hres; [done |].
  set (s1 := storeUpdate id (TransferRoot.patchSentBondTxAt (clock E (S (ticks w)))) (db w))
    in *.
  destruct (preSendLog_quiet E id h t d src ids) as (Hp1 & _).
  destruct (validationLog_quiet E s1 h d t) as (Hl1 & _).
  assert (validation E s1 h d t = Returned true) as Hv.
  { rewrite Hevs, bondTxs_app, Hp1 in Hne. simpl in Hne.
    rewrite bondTxs_transmitEvents in Hne.
    by destruct (validation E s1 h d t) as [[|] | e]. }
  split.
  - rewrite Hres. unfold transmitOutcome. by rewrite Hv, Hreject.
  - eexists (preSendLog E id h t d src ids ++ _ :: validationLog E s1 h d t). split.
    + rewrite Hevs. unfold transmitEvents. rewrite Hv, Hreject.
      rewrite <- !app_assoc. reflexivity.
    + rewrite bondTxs_app, Hp1. simpl. exact Hl1.
Qed.

(** The theorem on a rejected transaction. *)
Lemma failed_dispatch_is_logged_and_rethrown_witness :
  result (checkTransfersCommitted
            (sampleEnv false false 1000 0 110001 (TxRejected "boom") None)
            "0xAb,0xcd" "0xAb,0xcd" 1000 137 100 10 (Some ["0xAb"; "0xcd"]))
         (sampleWorld (Some ["0xAb"; "0xcd"]))
  = Thrown (RemoteFailure "boom").
Proof.
  refine (proj1 (failed_dispatch_is_logged_and_rethrown
                   (sampleEnv false false 1000 0 110001 (TxRejected "boom") None)
                   "0xAb,0xcd" "0xAb,0xcd" 1000 137 100 10 (Some ["0xAb"; "0xcd"])
                   (sampleWorld (Some ["0xAb"; "0xcd"])) "boom" _ _));
    vm_compute; [discriminate | reflexivity].
Defined.

(** C8, as stated, fails: a dispatch is made and rejected, the error is
    logged and rethrown, and the notifier has not been called once. *)
Lemma failed_dispatch_is_not_notified :
  let E := sampleEnv false false 1000 0 110001 (TxRejected "boom") None in
  let run := checkTransfersCommitted E "0xAb,0xcd" "0xAb,0xcd" 1000 137 100 10
               (Some ["0xAb"; "0xcd"]) in
  let w := sampleWorld (Some ["0xAb"; "0xcd"]) in
  bondTxs (emitted run w) = [("0xAb,0xcd", 137, 1000)]
  /\ result run w = Thrown (RemoteFailure "boom")
  /\ last (logLines (emitted run w)) = Some (Error, MSendError "boom")
  /\ notifications (emitted run w) = [].
Proof. repeat split; vm_compute; reflexivity. Qed.

(** ** Roots already bonded *)

Lemma storeUpdate_lookup id p (s : Store) :
  storeUpdate id p s !! id
  = Some (TransferRoot.assign (default TransferRoot.empty (s !! id)) p).
Proof. unfold storeUpdate. apply lookup_insert_eq. Qed.

Lemma storeUpdate_lookup_ne id k p (s : Store) :
  id <> k -> storeUpdate id p s !! k = s !! k.
Proof. intros Hne. unfold storeUpdate. by apply lookup_insert_ne. Qed.

Lemma watcherPatch_keeps_id p : watcherPatch p -> TransferRoot.transferRootId p = None.
Proof. by intros [-> | [now ->]]. Qed.

(** A write of the watcher keeps the store keyed... *)
Lemma storeKeyed_update (s : Store) id p :
  storeKeyed s -> watcherPatch p -> storeKeyed (storeUpdate id p s).
Proof.
  intros Hkeyed Hp k r id' Hlook Hid.
  destruct (decide (id = k)) as [-> | Hne].
  - rewrite storeUpdate_lookup in Hlook. injection Hlook as <-.
    simpl in Hid. rewrite (watcherPatch_keeps_id p Hp) in Hid. simpl in Hid.
    destruct (s !! k) as [old |] eqn:Hold; simpl in Hid; [| discriminate].
    by eapply Hkeyed.
  - rewrite storeUpdate_lookup_ne in Hlook by done. by eapply Hkeyed.
Qed.

(** ... and never clears an [isNotFound] flag. *)
Lemma isNotFound_update (s : Store) id k p :
  watcherPatch p ->
  s !! id ≫= TransferRoot.isNotFound = Some true ->
  storeUpdate k p s !! id ≫= TransferRoot.isNotFound = Some true.
Proof.
  intros Hp Hflag. destruct (decide (k = id)) as [-> | Hne].
  - rewrite storeUpdate_lookup. simpl.
    destruct Hp as [-> | [now ->]]; simpl; [done |].
    by destruct (s !! id).
  - by rewrite storeUpdate_lookup_ne.
Qed.

Lemma applyUpdates_invariant writes (s : Store) id :
  Forall (fun kp => watcherPatch kp.2) writes ->
  storeKeyed s ->
  s !! id ≫= TransferRoot.isNotFound = Some true ->
  storeKeyed (applyUpdates writes s)
  /\ applyUpdates writes s !! id ≫= TransferRoot.isNotFound = Some true.
Proof.
  revert s. induction writes as [| [k p] writes IH]; intros s Hall Hkeyed Hflag.
  - done.
  - apply Forall_cons in Hall as [Hp Hall]. simpl in Hp. simpl.
    apply IH; [done | by apply storeKeyed_update | by apply isNotFound_update].
Qed.

Lemma toUnbonded_id r u :
  toUnbonded r = Some u -> TransferRoot.transferRootId r = Some (uTransferRootId u).
Proof.
  unfold toUnbonded. intros H.
  destruct (TransferRoot.transferRootId r); [| discriminate].
  destruct (TransferRoot.transferRootHash r); [| discriminate].
  destruct (TransferRoot.totalAmount r); [| discriminate].
  destruct (TransferRoot.destinationChainId r); [| discriminate].
  destruct (TransferRoot.committedAt r); [| discriminate].
  destruct (TransferRoot.sourceChainId r); [| discriminate].
  by injection H as <-.
Qed.

(** The unbonded-roots query passes over a root marked [isNotFound]. *)
Lemma getUnbondedTransferRoots_skips route (s : Store) id u :
  storeKeyed s ->
  s !! id ≫= TransferRoot.isNotFound = Some true ->
  u ∈ getUnbondedTransferRoots route s ->
  uTransferRootId u <> id.
Proof.
  intros Hkeyed Hflag Hin Hid.
  unfold getUnbondedTransferRoots in Hin.
  apply list_elem_of_omap in Hin as (r & Hr & Hu).
  apply list_elem_of_filter in Hr as [Hpending Hr].
  apply list_elem_of_fmap in Hr as ([k r'] & -> & Hkr). simpl in *.
  apply elem_of_map_to_list in Hkr.
  apply toUnbonded_id in Hu. rewrite Hid in Hu.
  assert (id = k) as -> by (by eapply Hkeyed).
  rewrite Hkr in Hflag. simpl in Hflag.
  unfold isPending in Hpending. rewrite Hflag in Hpending. simpl in Hpending.
  by rewrite andb_false_r in Hpending.
Qed.

(** C6. An evaluation that passes the timing gate for a root the L1 bridge
    reports as bonded logs a warning, writes [isNotFound = true] under the
    root's id, and ends: these two events are all it emits (no hash
    verification, credit check, vault operation, intent marker or
    transaction). The stored record then carries the flag, and - the store
    being keyed by root id - the unbonded-roots query never selects the root
    again, whatever this watcher writes to the store afterwards. *)
Theorem already_bonded_is_terminal E id h t d c src ids w :
  storeKeyed (db w) ->
  timingOk E c w = true ->
  isTransferRootIdBonded E id = true ->
  let run := checkTransfersCommitted E id h t d c src ids in
  let w' := execute run w in
  result run w = Returned AlreadyBonded
  /\ emitted run w
     = [Log Warn MAlreadyBonded; DbUpdate id (TransferRoot.patchIsNotFound true)]
  /\ db w' = storeUpdate id (TransferRoot.patchIsNotFound true) (db w)
  /\ db w' !! id ≫= TransferRoot.isNotFound = Some true
  /\ (forall writes,
        Forall (fun kp => watcherPatch kp.2) writes ->
        forall u,
          u ∈ getUnbondedTransferRoots (routeOk E) (applyUpdates writes (db w')) ->
          uTransferRootId u <> id).
Proof.
  intros Hkeyed Htime Hbonded run w'. subst w' run.
  pose proof (checkTransfersCommitted_run E id h t d c src ids w) as Hrun.
  cbv zeta in Hrun. rewrite Htime, bondedPhase_run, Hbonded in Hrun.
  rewrite (execute_run _ _ _ _ Hrun), (result_run _ _ _ _ Hrun).
  assert (storeUpdate id (TransferRoot.patchIsNotFound true) (db w) !! id
          ≫= TransferRoot.isNotFound = Some true) as Hflag
    by (by rewrite storeUpdate_lookup).
  split; [done |]. split; [| split; [done | split; [done |]]].
  - eapply emitted_run; [exact Hrun |]. cbn [trace stored logged ticked].
    by rewrite <- app_assoc.
  - intros writes Hall u Hin.
    cbn [db stored logged ticked] in Hin.
    destruct (applyUpdates_invariant writes
                (storeUpdate id (TransferRoot.patchIsNotFound true) (db w)) id)
      as [Hkeyed' Hflag']; [done | | done |].
    + apply storeKeyed_update; [done | by left].
    + by eapply getUnbondedTransferRoots_skips.
Qed.

Lemma sampleStore_keyed ids : storeKeyed (sampleStore ids).
Proof.
  intros k r id Hlook Hid. unfold sampleStore in Hlook.
  apply lookup_singleton_Some in Hlook as [<- <-]. simpl in Hid. congruence.
Qed.

(** The theorem on a bonded root, evaluated past the release time. *)
Lemma already_bonded_is_terminal_witness :
  let E := sampleEnv false true 1000 0 110001 (TxSent "0xtx") None in
  let run := checkTransfersCommitted E "0xAb,0xcd" "0xAb,0xcd" 1000 137 100 10
               (Some ["0xAb"; "0xcd"]) in
  result run (sampleWorld (Some ["0xAb"; "0xcd"])) = Returned AlreadyBonded
  /\ emitted run (sampleWorld (Some ["0xAb"; "0xcd"]))
     = [Log Warn MAlreadyBonded;
        DbUpdate "0xAb,0xcd" (TransferRoot.patchIsNotFound true)].
Proof.
  pose proof (already_bonded_is_terminal
                (sampleEnv false true 1000 0 110001 (TxSent "0xtx") None)
                "0xAb,0xcd" "0xAb,0xcd" 1000 137 100 10 (Some ["0xAb"; "0xcd"])
                (sampleWorld (Some ["0xAb"; "0xcd"]))
                (sampleStore_keyed _) eq_refl eq_refl) as (Hexit & Hevs & _).
  split; [exact Hexit | exact Hevs].
Defined.

(** ** Insufficient credit *)

(** The loop of the poll: an evaluation for each item that passes the coarse
    check, a debug line for each item that does not. *)
Lemma startEvaluations_run E roots w :
  startEvaluations E roots w
  = (Returned (map (evaluationOf E) (filter (fun r => coarseShort E r = false) roots)),
     logged (coarseLog E roots) w).
Proof.
  revert w. induction roots as [| r roots IH]; intros w.
  - unfold ret, coarseLog; simpl. by rewrite logged_nil.
  - cbn [startEvaluations coarseLog flat_map]. rewrite filter_cons.
    fold (coarseShort E r). fold (coarseLog E roots).
    destruct (coarseShort E r) eqn:Hshort.
    + rewrite decide_False by done.
      unfold bind, logger, emit. rewrite IH. by rewrite logged_logged.
    + rewrite decide_True by done.
      unfold bind, ret. rewrite IH. reflexivity.
Qed.

Lemma coarseLog_lines E roots :
  notifications (coarseLog E roots) = []
  /\ logLines (coarseLog E roots)
     = map (fun r => (Debug, MNotEnoughCredit
                               (getAvailableCreditForBond E (ethereumChainId E))
                               (uTotalAmount r)))
           (filter (fun r => coarseShort E r = true) roots).
Proof.
  induction roots as [| r roots [IH1 IH2]]; [done |].
  unfold coarseLog in *. cbn [flat_map]. rewrite filter_cons.
  unfold notifications, logLines in *. rewrite !omap_app, IH1, IH2.
  destruct (coarseShort E r).
  - by rewrite decide_True by done.
  - by rewrite decide_False by done.
Qed.

Lemma filter_all_short E roots :
  Forall (fun r => coarseShort E r = true) roots ->
  filter (fun r => coarseShort E r = false) roots = [].
Proof.
  induction 1 as [| r roots Hr _ IH]; [done |].
  rewrite filter_cons, decide_False by congruence. exact IH.
Qed.

(** C7, as amended. An evaluation that comes to the precise credit check
    with less credit than the required bond logs the shortage at error level
    and sends the same message to the notifier. The coarse pre-filter of the
    poll loop does not alert: an item whose total amount exceeds the
    available credit gets one debug log line, no evaluation is started for
    it, and the loop never calls the notifier; a poll whose items all fail
    the coarse check emits its opening line and those debug lines, and
    nothing else. *)
Theorem insufficient_credit_reporting E :
  (forall id h t d c src ids w,
     reachesCreditCheck E id h c ids w = true ->
     creditOk E t = false ->
     let run := checkTransfersCommitted E id h t d c src ids in
     let msg := MNotEnoughCredit (getAvailableCreditForBond E (ethereumChainId E))
                                 (getBondForTransferAmount E t) in
     result run w = Returned NotEnoughCredit
     /\ last (logLines (emitted run w)) = Some (Error, msg)
     /\ notifications (emitted run w) = [(Error, msg)])
  /\ (forall r rest w,
        coarseShort E r = true ->
        startEvaluations E (r :: rest) w
        = startEvaluations E rest
            (logged [Log Debug (MNotEnoughCredit
                                  (getAvailableCreditForBond E (ethereumChainId E))
                                  (uTotalAmount r))] w))
  /\ (forall roots w,
        let run := startEvaluations E roots in
        notifications (emitted run w) = []
        /\ logLines (emitted run w)
           = map (fun r => (Debug, MNotEnoughCredit
                                     (getAvailableCreditForBond E (ethereumChainId E))
                                     (uTotalAmount r)))
                 (filter (fun r => coarseShort E r = true) roots)
        /\ result run w
           = Returned (map (evaluationOf E)
                           (filter (fun r => coarseShort E r = false) roots)))
  /\ (forall w,
        let roots := getUnbondedTransferRoots (routeOk E) (db w) in
        roots <> [] ->
        Forall (fun r => coarseShort E r = true) roots ->
        checkTransfersCommittedFromDb E w
        = (Returned tt,
           logged (Log Info (MChecking (length roots)) :: coarseLog E roots) w)).
Proof.
  split; [| split; [| split]].
  - intros id h t d c src ids w Hreach Hcredit run msg. subst run.
    pose proof (checkTransfersCommitted_credit E id h t d c src ids w Hreach) as Hrun.
    rewrite creditPhase_run in Hrun. cbv zeta in Hrun.
    unfold creditOk in Hcredit. apply negb_false_iff in Hcredit.
    rewrite Hcredit in Hrun. fold msg in Hrun.
    assert (emitted (checkTransfersCommitted E id h t d c src ids) w
            = infoLog id h src ++ hashLog ids ++ [Log Error msg; Notify Error msg])
      as ->.
    { eapply emitted_run; [exact Hrun |]. cbn [trace logged ticked].
      by rewrite <- !app_assoc. }
    split; [by eapply result_run |].
    unfold logLines, notifications. rewrite !omap_app.
    destruct (hashLog_quiet ids) as (_ & _ & Hn & _).
    unfold notifications in Hn. rewrite Hn. split; [| done].
    rewrite app_assoc. apply last_snoc.
  - intros r rest w Hshort. cbn [startEvaluations].
    fold (coarseShort E r). rewrite Hshort. reflexivity.
  - intros roots w run. subst run.
    pose proof (startEvaluations_run E roots w) as Hrun.
    destruct (coarseLog_lines E roots) as [Hn Hl].
    erewrite emitted_run by (exact Hrun || reflexivity).
    split; [done |]. split; [done |]. by eapply result_run.
  - intros w roots Hsome Hshort.
    unfold checkTransfersCommittedFromDb, bind, getDb. fold roots.
    destruct roots as [| r roots'] eqn:Hroots; [done |].
    cbn [length Nat.eqb]. unfold logger, emit.
    rewrite startEvaluations_run, filter_all_short by done.
    cbn [map promiseAll]. unfold ret. by rewrite logged_logged.
Qed.

(** C7, as stated, fails at the coarse pre-filter: with 999 units of credit
    the poll passes over a root of 1000 units with a debug log line and
    without a call to the notifier. *)
Lemma coarse_credit_skip_is_not_notified :
  let E := sampleEnv false false 999 0 110001 (TxSent "0xtx") None in
  let w := sampleWorld (Some ["0xAb"; "0xcd"]) in
  map uTotalAmount (getUnbondedTransferRoots (routeOk E) (db w)) = [1000]
  /\ emitted (checkTransfersCommittedFromDb E) w
     = [Log Info (MChecking 1); Log Debug (MNotEnoughCredit 999 1000)]
  /\ notifications (emitted (checkTransfersCommittedFromDb E) w) = [].
Proof. repeat split; vm_compute; reflexivity. Qed.

(** * Further properties of the watcher *)

(** ** The validator as a function of the store *)

Lemma validationLog_spec E s h d t :
  match validation E s h d t with
  | Returned false => exists m, validationLog E s h d t = [Log Error m]
  | _ => validationLog E s h d t = []
  end.
Proof.
  unfold validation, validationLog, result, execute, isPreTransactionDataValid,
    bind, getDb, blank, logger, emit, ret, throw, liftOutcome; simpl.
  destruct (bool_decide _); simpl; [| eauto].
  destruct (bool_decide _); simpl; [| eauto].
  destruct (_ ≫= TransferRoot.transferIds); simpl; [| done].
  destruct (gatherTransferIds _ _ _); simpl; [| done].
  destruct (forallb _ _); simpl; eauto.
Qed.

(** X1. The validator only reads: it leaves the store and the clock as they
    are, it emits nothing when it returns [true] or raises, and exactly one
    error log line when it returns [false]. *)
Theorem isPreTransactionDataValid_reads_only E h d t w :
  let run := isPreTransactionDataValid E h d t in
  db (execute run w) = db w
  /\ ticks (execute run w) = ticks w
  /\ (result run w = Returned false -> exists m, emitted run w = [Log Error m])
  /\ (result run w <> Returned false -> emitted run w = []).
Proof.
  intros run. subst run.
  pose proof (isPreTransactionDataValid_run E h d t w) as Hrun.
  pose proof (validationLog_spec E (db w) h d t) as Hlog.
  rewrite (execute_run _ _ _ _ Hrun), (result_run _ _ _ _ Hrun).
  rewrite (emitted_run _ _ _ _ _ Hrun eq_refl).
  split; [done |]. split; [done |]. split.
  - intros Hv. by rewrite Hv in Hlog.
  - intros Hv. by destruct (validation E (db w) h d t) as [[|] | e].
Qed.

(** ** The uniqueness loop *)

Lemma numOccurrences_app x a b :
  numOccurrences x (a ++ b) = (numOccurrences x a + numOccurrences x b)%nat.
Proof. unfold numOccurrences. by rewrite filter_app, length_app. Qed.

Lemma numOccurrences_pos x l : x ∈ l -> (1 <= numOccurrences x l)%nat.
Proof.
  intros Hin. apply list_elem_of_split in Hin as (l1 & l2 & ->).
  rewrite numOccurrences_app. unfold numOccurrences at 2.
  rewrite filter_cons, decide_True by done. simpl. lia.
Qed.


Lemma flattenIds_app a b : flattenIds (a ++ b) = flattenIds a ++ flattenIds b.
Proof. unfold flattenIds. apply flat_map_app. Qed.

Lemma elem_of_flattenIds x roots :
  x ∈ flattenIds roots
  <-> exists r, r ∈ roots /\ x ∈ map toLowerCase (default [] (TransferRoot.transferIds r)).
Proof.
  unfold flattenIds. rewrite list_elem_of_In, in_flat_map. split.
  - intros (r & Hr & Hx). exists r. by rewrite !list_elem_of_In.
  - intros (r & Hr & Hx). exists r. by rewrite <- !list_elem_of_In.
Qed.

(** X2. The loop that gathers the identifiers of the window passes over
    every record that is not sourced from the watcher's chain, whether or not
    it carries [transferIds]: it gives what it gives on the records of the
    watcher's chain alone. *)
Theorem gatherTransferIds_skips_other_chains E roots acc :
  gatherTransferIds E roots acc
  = gatherTransferIds E
      (filter (fun r => TransferRoot.sourceChainId r = Some (chainId E)) roots) acc.
Proof.
  revert acc. induction roots as [| r roots IH]; intros acc; [done |].
  rewrite filter_cons. cbn [gatherTransferIds].
  case_bool_decide as Hsrc; simpl.
  - rewrite decide_True by done. cbn [gatherTransferIds].
    rewrite bool_decide_eq_true_2 by done. simpl.
    destruct (TransferRoot.transferIds r); [apply IH | done].
  - rewrite decide_False by done. apply IH.
Qed.

(** X3. Two records of the watcher's chain in the two-week window that
    share a member identifier, in whatever letter case, make the validator
    return [false] for a target root that lists this identifier, however the
    rest of the store looks. *)
Theorem shared_transfer_id_fails E h d t w r1 r2 l1 l2 l3 a b c :
  recordFound E (db w) h t ->
  destinationMatches E (db w) h d t ->
  idsPresent E (db w) h t ->
  sameChainWindow E (db w) = l1 ++ r1 :: l2 ++ r2 :: l3 ->
  a ∈ default [] (TransferRoot.transferIds r1) ->
  b ∈ default [] (TransferRoot.transferIds r2) ->
  c ∈ default [] (targetRecord E (db w) h t ≫= TransferRoot.transferIds) ->
  toLowerCase a = toLowerCase c ->
  toLowerCase b = toLowerCase c ->
  result (isPreTransactionDataValid E h d t) w = Returned false.
Proof.
  intros Hf Hm Hp Hwin Ha Hb Hc Hac Hbc.
  erewrite result_run by apply isPreTransactionDataValid_run.
  rewrite validation_spec, decide_True, decide_True by done.
  f_equal. apply bool_decide_eq_false. intros Hunique. apply Hunique.
  unfold notUnique, targetIds. apply Exists_exists.
  exists (toLowerCase c). split; [by apply list_elem_of_fmap_2 |].
  rewrite Hwin.
  replace (l1 ++ r1 :: l2 ++ r2 :: l3) with (l1 ++ [r1] ++ l2 ++ [r2] ++ l3) by done.
  rewrite !flattenIds_app, !numOccurrences_app.
  assert (1 <= numOccurrences (toLowerCase c) (flattenIds [r1]))%nat.
  { apply numOccurrences_pos, elem_of_flattenIds. exists r1.
    split; [by left |]. rewrite <- Hac. by apply list_elem_of_fmap_2. }
  assert (1 <= numOccurrences (toLowerCase c) (flattenIds [r2]))%nat.
  { apply numOccurrences_pos, elem_of_flattenIds. exists r2.
    split; [by left |]. rewrite <- Hbc. by apply list_elem_of_fmap_2. }
  lia.
Qed.


(** X5. A target root stored with an empty member list passes the
    validation whatever the window holds, as long as the record is found, the
    destination matches and the window records of the watcher's chain carry
    their members: there is no identifier to be counted. The validator logs
    nothing. *)
Theorem empty_member_list_passes E h d t w :
  recordFound E (db w) h t ->
  destinationMatches E (db w) h d t ->
  targetRecord E (db w) h t ≫= TransferRoot.transferIds = Some [] ->
  Forall (fun r => is_Some (TransferRoot.transferIds r)) (sameChainWindow E (db w)) ->
  result (isPreTransactionDataValid E h d t) w = Returned true
  /\ emitted (isPreTransactionDataValid E h d t) w = [].
Proof.
  intros Hf Hm Hempty Hwin.
  pose proof (isPreTransactionDataValid_run E h d t w) as Hrun.
  pose proof (validationLog_spec E (db w) h d t) as Hlog.
  assert (validation E (db w) h d t = Returned true) as Hv.
  { rewrite validation_spec, decide_True, decide_True.
    - f_equal. apply bool_decide_eq_true. unfold notUnique, targetIds.
      rewrite Hempty. simpl. intros Hex. inversion Hex.
    - split; [by rewrite Hempty | done].
    - done. }
  rewrite Hv in Hlog, Hrun. split; [by eapply result_run |].
  eapply emitted_run; [exact Hrun |]. simpl. by rewrite Hlog.
Qed.

(** A quick way through hypotheses that are decided by computation. *)
Ltac by_computation := apply (bool_decide_unpack _); vm_compute; exact I.

(** The theorem on two stored roots that list the same transfer under
    different letter cases. *)
Lemma shared_transfer_id_fails_witness :
  result (isPreTransactionDataValid
            (sampleEnv false false 1000 0 110001 (TxSent "0xtx") None)
            "0xAb,0xcd" 137 1000)
         (blank (sampleStore2 (Some ["0xAb"; "0xcd"]) (Some ["0xAB"])))
  = Returned false.
Proof.
  apply (shared_transfer_id_fails
           (sampleEnv false false 1000 0 110001 (TxSent "0xtx") None)
           "0xAb,0xcd" 137 1000
           (blank (sampleStore2 (Some ["0xAb"; "0xcd"]) (Some ["0xAB"])))
           (sampleOther (Some ["0xAB"])) (sampleRoot (Some ["0xAb"; "0xcd"]))
           [] [] [] "0xAB" "0xAb" "0xAb").
  - vm_compute; reflexivity.
  - vm_compute; reflexivity.
  - by_computation.
  - vm_compute; reflexivity.
  - by_computation.
  - by_computation.
  - by_computation.
  - vm_compute; reflexivity.
  - vm_compute; reflexivity.
Defined.


(** The theorem on a stored root with an empty member list. *)
Lemma empty_member_list_passes_witness :
  result (isPreTransactionDataValid
            (sampleEnv false false 1000 0 110001 (TxSent "0xtx") None)
            "0xAb,0xcd" 137 1000)
         (blank (sampleStore2 (Some []) (Some ["0xAB"])))
  = Returned true.
Proof.
  refine (proj1 (empty_member_list_passes
                   (sampleEnv false false 1000 0 110001 (TxSent "0xtx") None)
                   "0xAb,0xcd" 137 1000
                   (blank (sampleStore2 (Some []) (Some ["0xAB"]))) _ _ _ _)).
  - vm_compute; reflexivity.
  - vm_compute; reflexivity.
  - vm_compute; reflexivity.
  - by_computation.
Defined.

(** ** Sending *)

Lemma sendBondTransferRoot_run E h d t w :
  sendBondTransferRoot E h d t w =
  match validation E (db w) h d t with
  | Returned true =>
      (match bondTransferRoot E h d t with
       | TxSent txHash => Returned txHash
       | TxRejected reason => Thrown (RemoteFailure reason)
       end,
       logged (validationLog E (db w) h d t ++ [BondTransferRoot h d t]) w)
  | Returned false => (Thrown ReorgDetected, logged (validationLog E (db w) h d t) w)
  | Thrown e => (Thrown e, logged (validationLog E (db w) h d t) w)
  end.
Proof.
  unfold sendBondTransferRoot, bind. rewrite isPreTransactionDataValid_run.
  destruct (validation E (db w) h d t) as [[|] | e]; simpl; try reflexivity.
  unfold callBondTransferRoot, bind, emit, ret, throw.
  destruct (bondTransferRoot E h d t); by rewrite logged_logged.
Qed.

(** X6. [sendBondTransferRoot] calls the bridge exactly when the validator
    passes on the store it is called with, once and with its own three
    arguments, and then ends as the bridge call ends; when the validator
    returns [false] it raises the reorg error, when the validator raises it
    raises the same error, and in both cases the bridge is not called. It
    never writes to the store. *)
Theorem sendBondTransferRoot_contract E h d t w :
  let run := sendBondTransferRoot E h d t in
  let verdict := validation E (db w) h d t in
  db (execute run w) = db w
  /\ dbUpdates (emitted run w) = []
  /\ bondTxs (emitted run w)
     = match verdict with Returned true => [(h, d, t)] | _ => [] end
  /\ result run w
     = match verdict with
       | Returned true =>
           match bondTransferRoot E h d t with
           | TxSent txHash => Returned txHash
           | TxRejected reason => Thrown (RemoteFailure reason)
           end
       | Returned false => Thrown ReorgDetected
       | Thrown e => Thrown e
       end.
Proof.
  intros run verdict. subst run verdict.
  pose proof (sendBondTransferRoot_run E h d t w) as Hrun.
  destruct (validationLog_quiet E (db w) h d t) as (Hb & Hd & _).
  destruct (validation E (db w) h d t) as [[|] | e];
    rewrite (execute_run _ _ _ _ Hrun), (result_run _ _ _ _ Hrun),
      (emitted_run _ _ _ _ _ Hrun eq_refl);
    rewrite ?bondTxs_app, ?dbUpdates_app, Hb, Hd; done.
Qed.

(** ** The whole evaluation *)

Lemma dbUpdates_transmitEvents E s h t d : dbUpdates (transmitEvents E s h t d) = [].
Proof.
  unfold transmitEvents. rewrite dbUpdates_app.
  destruct (validationLog_quiet E s h d t) as (_ & -> & _).
  destruct (validation E s h d t) as [[|] | e]; simpl; try done.
  by destruct (bondTransferRoot E h d t).
Qed.

Lemma dbUpdates_sendEvents E id h t d bond s now :
  dbUpdates (sendEvents E id h t d bond s now)
  = match vaultOutcome E d bond with
    | Returned _ => [(id, TransferRoot.patchSentBondTxAt now)]
    | Thrown _ => []
    end.
Proof.
  unfold sendEvents. rewrite dbUpdates_app.
  destruct (vaultEvents_quiet E d bond) as (_ & ->).
  destruct (vaultOutcome E d bond); [| done].
  rewrite dbUpdates_app, dbUpdates_transmitEvents. reflexivity.
Qed.

Lemma dbUpdates_gates id h src ids evs :
  dbUpdates (infoLog id h src ++ hashLog ids ++ evs) = dbUpdates evs.
Proof.
  rewrite !dbUpdates_app. by destruct (hashLog_quiet ids) as (_ & -> & _).
Qed.

(** An evaluation ends as the summary says, emits what the summary lists,
    and leaves the store it found with the writes of its trace applied. *)
Lemma checkTransfersCommitted_summary E id h t d c src ids w :
  exists w',
    checkTransfersCommitted E id h t d c src ids w
    = (evaluationOutcome E id h t d c ids w, w')
    /\ trace w' = trace w ++ evaluationEvents E id h t d c src ids w
    /\ db w' = applyUpdates (dbUpdates (evaluationEvents E id h t d c src ids w)) (db w).
Proof.
  rewrite checkTransfersCommitted_run. cbv zeta.
  unfold evaluationOutcome, evaluationEvents.
  destruct (timingOk E c w); cbn [negb].
  2: { eexists. split; [reflexivity |]. by split. }
  rewrite bondedPhase_run.
  destruct (isTransferRootIdBonded E id).
  { eexists. split; [reflexivity |]. cbn [trace db stored logged ticked].
    split; [by rewrite <- app_assoc | done]. }
  rewrite hashPhase_run.
  destruct (hashOk E h ids); cbn [negb].
  2: { eexists. split; [reflexivity |]. cbn [trace db logged ticked].
       rewrite dbUpdates_gates. split; [by rewrite <- !app_assoc | done]. }
  rewrite creditPhase_run. cbv zeta. unfold creditOk.
  destruct (_ <? _); cbn [negb].
  { eexists. split; [reflexivity |]. cbn [trace db logged ticked].
    rewrite dbUpdates_gates. split; [by rewrite <- !app_assoc | done]. }
  destruct (dryMode E).
  { eexists. split; [reflexivity |]. cbn [trace db logged ticked].
    rewrite dbUpdates_gates. split; [by rewrite <- !app_assoc | done]. }
  rewrite bondPhase_run. eexists. split; [reflexivity |].
  cbn [trace db logged ticked ticks].
  rewrite dbUpdates_gates, dbUpdates_sendEvents.
  split; [by rewrite <- !app_assoc |].
  by destruct (vaultOutcome E d (getBondForTransferAmount E t)).
Qed.

Lemma checkTransfersCommitted_emitted E id h t d c src ids w :
  emitted (checkTransfersCommitted E id h t d c src ids) w
  = evaluationEvents E id h t d c src ids w.
Proof.
  destruct (checkTransfersCommitted_summary E id h t d c src ids w)
    as (w' & Hrun & Htrace & _).
  by eapply emitted_run.
Qed.

Lemma checkTransfersCommitted_result E id h t d c src ids w :
  result (checkTransfersCommitted E id h t d c src ids) w
  = evaluationOutcome E id h t d c ids w.
Proof.
  destruct (checkTransfersCommitted_summary E id h t d c src ids w)
    as (w' & Hrun & _).
  by eapply result_run.
Qed.

(** X7. The gates of an evaluation are tried in a fixed order, and the
    first that closes decides the exit: too early before anything is asked
    of the bridge; already bonded before the hash is verified; hash mismatch
    before credit is looked at; insufficient credit before the dry mode; and
    only a run that passes all of them enters the send phase, whose end is
    the end of the evaluation. *)
Theorem gates_in_order E id h t d c src ids w :
  result (checkTransfersCommitted E id h t d c src ids) w =
  if negb (timingOk E c w) then Returned TooEarly
  else if isTransferRootIdBonded E id then Returned AlreadyBonded
  else if negb (hashOk E h ids) then Returned HashMismatch
  else if negb (creditOk E t) then Returned NotEnoughCredit
  else if dryMode E then Returned DryRun
  else
    match vaultOutcome E d (getBondForTransferAmount E t) with
    | Thrown e => Thrown e
    | Returned _ =>
        transmitOutcome E
          (storeUpdate id (TransferRoot.patchSentBondTxAt (clock E (S (ticks w)))) (db w))
          h t d
    end.
Proof. apply checkTransfersCommitted_result. Qed.

(** X8. An evaluation writes to the store at most once, under the id of
    its own root, and what it writes is either the [isNotFound] flag or the
    [sentBondTxAt] marker with the second reading of the clock; the store it
    leaves is the store it found with that write applied, so the record of
    every other root is untouched. *)
Theorem evaluation_writes_own_root_once E id h t d c src ids w :
  let run := checkTransfersCommitted E id h t d c src ids in
  let writes := dbUpdates (emitted run w) in
  (writes = []
   \/ writes = [(id, TransferRoot.patchIsNotFound true)]
   \/ writes = [(id, TransferRoot.patchSentBondTxAt (clock E (S (ticks w))))])
  /\ db (execute run w) = applyUpdates writes (db w)
  /\ (forall k, k <> id -> db (execute run w) !! k = db w !! k).
Proof.
  intros run writes. subst run writes.
  destruct (checkTransfersCommitted_summary E id h t d c src ids w)
    as (w' & Hrun & Htrace & Hdb).
  rewrite (execute_run _ _ _ _ Hrun), (emitted_run _ _ _ _ _ Hrun Htrace), Hdb.
  assert (dbUpdates (evaluationEvents E id h t d c src ids w) = []
          \/ dbUpdates (evaluationEvents E id h t d c src ids w)
             = [(id, TransferRoot.patchIsNotFound true)]
          \/ dbUpdates (evaluationEvents E id h t d c src ids w)
             = [(id, TransferRoot.patchSentBondTxAt (clock E (S (ticks w))))])
    as Hcases.
  { unfold evaluationEvents.
    destruct (timingOk E c w); cbn [negb]; [| by left].
    destruct (isTransferRootIdBonded E id); [right; by left |].
    rewrite dbUpdates_gates.
    destruct (hashOk E h ids); cbn [negb]; [| by left].
    destruct (creditOk E t); cbn [negb]; [| by left].
    destruct (dryMode E); [by left |].
    rewrite dbUpdates_sendEvents.
    destruct (vaultOutcome E d (getBondForTransferAmount E t)); auto. }
  split; [done |]. split; [done |].
  intros k Hk. destruct Hcases as [-> | [-> | ->]]; simpl;
    by rewrite ?storeUpdate_lookup_ne.
Qed.

(** X9. When the members of a root are known and their recomputed merkle
    root differs from the stored hash, an evaluation that has passed the
    timing gate and the bonded check logs the mismatch at error level and
    ends there: it has read the clock once, it leaves the store as it was,
    and it reaches neither the credit check nor the notifier. *)
Theorem hash_mismatch_aborts E id h t d c src l w :
  timingOk E c w = true ->
  isTransferRootIdBonded E id = false ->
  l <> [] ->
  getHexRoot E l <> h ->
  checkTransfersCommitted E id h t d c src (Some l) w
  = (Returned HashMismatch,
     logged (infoLog id h src
             ++ [Log Debug (MDump "transferRootHash transferIds:");
                 Log Debug (MDump "calculated transfer root hash:");
                 Log Error MHashMismatch])
            (ticked w)).
Proof.
  intros Htime Hbonded Hl Hhash.
  rewrite checkTransfersCommitted_run. cbv zeta. rewrite Htime.
  rewrite bondedPhase_run, Hbonded, hashPhase_run.
  unfold hashOk, hashLog. simpl.
  destruct l as [| x l]; [done |]. simpl.
  rewrite (proj2 (String.eqb_neq _ _)) by done.
  by rewrite logged_logged.
Qed.

(** The theorem on a root stored under a hash its members do not give. *)
Lemma hash_mismatch_aborts_witness :
  result (checkTransfersCommitted
            (sampleEnv false false 1000 0 110001 (TxSent "0xtx") None)
            "0xAb,0xcd" "0xdead" 1000 137 100 10 (Some ["0xAb"; "0xcd"]))
         (sampleWorld (Some ["0xAb"; "0xcd"]))
  = Returned HashMismatch.
Proof.
  unfold result.
  rewrite (hash_mismatch_aborts
             (sampleEnv false false 1000 0 110001 (TxSent "0xtx") None)
             "0xAb,0xcd" "0xdead" 1000 137 100 10 ["0xAb"; "0xcd"]
             (sampleWorld (Some ["0xAb"; "0xcd"]))); [reflexivity | ..].
  - vm_compute; reflexivity.
  - vm_compute; reflexivity.
  - discriminate.
  - vm_compute. discriminate.
Defined.

(** X10. When the members of a root are unknown - the list is absent or
    empty - the hash verification is passed over: whatever hash is stored,
    an evaluation past the timing gate and the bonded check goes on with the
    precise credit check, having logged the member list and no computed
    root. *)
Theorem unknown_members_skip_hash_check E id h t d c src ids w :
  ids = None \/ ids = Some [] ->
  timingOk E c w = true ->
  isTransferRootIdBonded E id = false ->
  let run := checkTransfersCommitted E id h t d c src ids in
  run w = creditPhase E id h t d
            (logged (infoLog id h src
                     ++ [Log Debug (MDump "transferRootHash transferIds:")])
                    (ticked w))
  /\ result run w <> Returned HashMismatch.
Proof.
  intros Hids Htime Hbonded run. subst run.
  assert (hashOk E h ids = true /\ hashLog ids
          = [Log Debug (MDump "transferRootHash transferIds:")]) as [Hok Hlog]
    by (destruct Hids as [-> | ->]; done).
  split.
  - rewrite checkTransfersCommitted_run. cbv zeta. rewrite Htime.
    rewrite bondedPhase_run, Hbonded, hashPhase_run, Hok, Hlog.
    by rewrite logged_logged.
  - rewrite checkTransfersCommitted_result. unfold evaluationOutcome.
    rewrite Htime, Hbonded, Hok. cbn [negb].
    destruct (creditOk E t); cbn [negb]; [| discriminate].
    destruct (dryMode E); [discriminate |].
    unfold sendOutcome, transmitOutcome.
    destruct (vaultOutcome _ _ _); [| discriminate].
    destruct (validation _ _ _ _ _) as [[|] | e]; try discriminate.
    by destruct (bondTransferRoot E h d t).
Qed.

(** The theorem on a root without members whose stored hash is arbitrary. *)
Lemma unknown_members_skip_hash_check_witness :
  result (checkTransfersCommitted
            (sampleEnv true false 1000 0 110001 (TxSent "0xtx") None)
            "0xAb,0xcd" "0xdead" 1000 137 100 10 None)
         (sampleWorld None)
  = Returned DryRun.
Proof.
  unfold result.
  rewrite (proj1 (unknown_members_skip_hash_check
                    (sampleEnv true false 1000 0 110001 (TxSent "0xtx") None)
                    "0xAb,0xcd" "0xdead" 1000 137 100 10 None
                    (sampleWorld None) (or_introl eq_refl) eq_refl eq_refl)).
  vm_compute; reflexivity.
Defined.

(** X11. A vault withdrawal that is rejected is fatal for the evaluation:
    the error is sent to the notifier and to the log, the mutex is released,
    and the same error is raised out of the evaluation, which has written no
    intent marker, has not run the validator and has dispatched nothing. *)
Theorem vault_failure_is_fatal E id h t d c src ids w msg :
  reachesSend E id h t c ids w = true ->
  autoWithdrawFlag E d = Some true ->
  getAvailableCreditForBond E d - getVaultBalance E d < getBondForTransferAmount E t ->
  withdrawFromVaultAndStake E d (getVaultBalance E d) = Some msg ->
  let run := checkTransfersCommitted E id h t d c src ids in
  let vaultBalance := getVaultBalance E d in
  result run w = Thrown (RemoteFailure msg)
  /\ emitted run w
     = infoLog id h src ++ hashLog ids
       ++ [MutexAcquire;
           Log Debug (MVaultState (getAvailableCreditForBond E d) vaultBalance
                        (getBondForTransferAmount E t) true);
           Notify Info (MAttemptWithdraw vaultBalance);
           Log Info (MAttemptWithdraw vaultBalance);
           WithdrawFromVaultAndStake d vaultBalance;
           Notify Error (MWithdrawError msg);
           Log Error (MWithdrawError msg);
           MutexRelease]
  /\ db (execute run w) = db w.
Proof.
  intros Hsend Hflag Hshort Hfail run vaultBalance. subst run vaultBalance.
  apply Z.ltb_lt in Hshort.
  assert (vaultOutcome E d (getBondForTransferAmount E t) = Thrown (RemoteFailure msg))
    as Hout by (unfold vaultOutcome; cbv zeta; by rewrite Hflag, Hshort, Hfail).
  pose proof (checkTransfersCommitted_send E id h t d c src ids w Hsend) as Hrun.
  rewrite bondPhase_run in Hrun. unfold sendOutcome, sendEvents in Hrun.
  rewrite Hout in Hrun. unfold vaultEvents in Hrun. cbv zeta in Hrun.
  rewrite Hflag, Hshort, Hfail in Hrun. cbn [truthy] in Hrun.
  split; [by eapply result_run |]. split.
  - eapply emitted_run; [exact Hrun |]. cbn [trace logged ticked].
    rewrite <- !app_assoc. reflexivity.
  - by rewrite (execute_run _ _ _ _ Hrun).
Qed.

(** The theorem on a watcher whose vault refuses the withdrawal. *)
Lemma vault_failure_is_fatal_witness :
  result (checkTransfersCommitted
            (sampleEnv false false 1000 200 110001 (TxSent "0xtx") (Some "vault closed"))
            "0xAb,0xcd" "0xAb,0xcd" 1000 42161 100 10 (Some ["0xAb"; "0xcd"]))
         (sampleWorld (Some ["0xAb"; "0xcd"]))
  = Thrown (RemoteFailure "vault closed").
Proof.
  refine (proj1 (vault_failure_is_fatal
                   (sampleEnv false false 1000 200 110001 (TxSent "0xtx")
                      (Some "vault closed"))
                   "0xAb,0xcd" "0xAb,0xcd" 1000 42161 100 10 (Some ["0xAb"; "0xcd"])
                   (sampleWorld (Some ["0xAb"; "0xcd"])) "vault closed" _ _ _ _)).
  - vm_compute; reflexivity.
  - vm_compute; reflexivity.
  - vm_compute; reflexivity.
  - vm_compute; reflexivity.
Defined.

(** X12. The vault step keeps to itself: it changes neither the store nor
    the clock, writes no patch and dispatches no transaction. When automatic
    withdrawal is configured its events lie between one acquisition and one
    release of the mutex, the release being its last event on every exit;
    and it raises only the rejection of the withdrawal call, after having
    sent it to the notifier. *)
Theorem vault_step_is_framed E d bond w :
  let run := withdrawFromVaultIfNeeded E d bond in
  let evs := emitted run w in
  db (execute run w) = db w
  /\ ticks (execute run w) = ticks w
  /\ dbUpdates evs = [] /\ bondTxs evs = []
  /\ (autoWithdrawFlag E d = Some true ->
        exists mid, evs = MutexAcquire :: mid ++ [MutexRelease]
                    /\ Forall (fun e => isLockEvent e = false) mid)
  /\ (forall e, result run w = Thrown e ->
        exists msg, e = RemoteFailure msg
                    /\ withdrawFromVaultAndStake E d (getVaultBalance E d) = Some msg
                    /\ In (Notify Error (MWithdrawError msg)) evs).
Proof.
  intros run evs. subst run evs.
  pose proof (withdrawFromVaultIfNeeded_run E d bond w) as Hrun.
  rewrite (execute_run _ _ _ _ Hrun), (result_run _ _ _ _ Hrun),
    (emitted_run _ _ _ _ _ Hrun eq_refl).
  destruct (vaultEvents_quiet E d bond) as (Hb & Hd).
  split; [done |]. split; [done |]. split; [done |]. split; [done |].
  unfold vaultEvents, vaultOutcome. cbv zeta. split.
  - intros ->. cbn [truthy].
    destruct (_ <? bond).
    + destruct (withdrawFromVaultAndStake E d (getVaultBalance E d)).
      * eexists [_; _; _; _; _; _]. split; [reflexivity |]. by repeat constructor.
      * eexists [_; _; _; _]. split; [reflexivity |]. by repeat constructor.
    + eexists [_]. split; [reflexivity |]. by repeat constructor.
  - intros e. destruct (truthy (autoWithdrawFlag E d)); [| discriminate].
    destruct (_ <? bond); [| discriminate]. cbn [andb].
    destruct (withdrawFromVaultAndStake E d (getVaultBalance E d)) as [msg |];
      [| discriminate].
    intros [= <-]. exists msg. split; [done |]. split; [done |].
    simpl. tauto.
Qed.

(** X13. An evaluation that passes every gate and the vault step, whose
    validator passes on the store as the intent marker left it and whose
    transaction the bridge accepts, ends as sent: after the marker it emits
    the dispatch, then the success line to the log and to the notifier, each
    with the transaction hash; and the stored root carries the marker. *)
Theorem accepted_bond_is_announced E id h t d c src ids w txHash :
  let now := clock E (S (ticks w)) in
  let marked := storeUpdate id (TransferRoot.patchSentBondTxAt now) (db w) in
  reachesSend E id h t c ids w = true ->
  vaultOutcome E d (getBondForTransferAmount E t) = Returned tt ->
  validation E marked h d t = Returned true ->
  bondTransferRoot E h d t = TxSent txHash ->
  let run := checkTransfersCommitted E id h t d c src ids in
  result run w = Returned Sent
  /\ emitted run w
     = preSendLog E id h t d src ids
       ++ [DbUpdate id (TransferRoot.patchSentBondTxAt now);
           BondTransferRoot h d t;
           Log Info (MBondSent d txHash h);
           Notify Info (MBondSent d txHash h)]
  /\ db (execute run w) = marked
  /\ db (execute run w) !! id ≫= TransferRoot.sentBondTxAt = Some now.
Proof.
  intros now marked Hsend Hvault Hvalid Htx run. subst run.
  pose proof (validationLog_spec E marked h d t) as Hlog. rewrite Hvalid in Hlog.
  pose proof (checkTransfersCommitted_send E id h t d c src ids w Hsend) as Hrun.
  rewrite bondPhase_run in Hrun. unfold sendOutcome, sendEvents in Hrun.
  rewrite Hvault in Hrun. cbn [ticks db logged ticked] in Hrun.
  fold now marked in Hrun.
  unfold transmitOutcome, transmitEvents in Hrun.
  rewrite Hvalid, Htx, Hlog in Hrun.
  split; [by eapply result_run |]. split; [| split].
  - eapply emitted_run; [exact Hrun |]. cbn [trace logged ticked].
    unfold preSendLog. rewrite <- !app_assoc. reflexivity.
  - by rewrite (execute_run _ _ _ _ Hrun).
  - rewrite (execute_run _ _ _ _ Hrun). cbn [db]. unfold marked.
    rewrite storeUpdate_lookup. simpl. reflexivity.
Qed.

(** The theorem on the sample root, bonded with transaction 0xtx. *)
Lemma accepted_bond_is_announced_witness :
  result (checkTransfersCommitted
            (sampleEnv false false 1000 0 110001 (TxSent "0xtx") None)
            "0xAb,0xcd" "0xAb,0xcd" 1000 137 100 10 (Some ["0xAb"; "0xcd"]))
         (sampleWorld (Some ["0xAb"; "0xcd"]))
  = Returned Sent.
Proof.
  refine (proj1 (accepted_bond_is_announced
                   (sampleEnv false false 1000 0 110001 (TxSent "0xtx") None)
                   "0xAb,0xcd" "0xAb,0xcd" 1000 137 100 10 (Some ["0xAb"; "0xcd"])
                   (sampleWorld (Some ["0xAb"; "0xcd"])) "0xtx" _ _ _ _)).
  - vm_compute; reflexivity.
  - vm_compute; reflexivity.
  - vm_compute; reflexivity.
  - vm_compute; reflexivity.
Defined.

Lemma notifications_vaultEvents E d bond l m :
  (l, m) ∈ notifications (vaultEvents E d bond) ->
  l = Error ->
  exists msg, m = MWithdrawError msg
              /\ vaultOutcome E d bond = Thrown (RemoteFailure msg).
Proof.
  unfold vaultEvents, vaultOutcome. cbv zeta.
  destruct (truthy (autoWithdrawFlag E d)); [| by intros ?%elem_of_nil].
  destruct (_ <? bond); cbn [andb]; [| by intros ?%elem_of_nil].
  destruct (withdrawFromVaultAndStake E d (getVaultBalance E d)) as [msg |]; simpl.
  - intros Hin ->. apply elem_of_cons in Hin as [[=] | Hin].
    apply elem_of_cons in Hin as [[= ->] | Hin]; [by exists msg |].
    by apply elem_of_nil in Hin.
  - intros Hin ->. apply elem_of_cons in Hin as [[=] | Hin].
    by apply elem_of_nil in Hin.
Qed.

Lemma notifications_transmitEvents E s h t d l m :
  (l, m) ∈ notifications (transmitEvents E s h t d) -> l = Info.
Proof.
  unfold transmitEvents. rewrite notifications_app.
  destruct (validationLog_quiet E s h d t) as (_ & _ & -> & _).
  destruct (validation E s h d t) as [[|] | e]; simpl;
    [| by intros ?%elem_of_nil..].
  destruct (bondTransferRoot E h d t); simpl; [| by intros ?%elem_of_nil].
  intros Hin. apply elem_of_cons in Hin as [[= -> _] | Hin]; [done |].
  by apply elem_of_nil in Hin.
Qed.

Lemma notifications_gates id h src ids evs :
  notifications (infoLog id h src ++ hashLog ids ++ evs) = notifications evs.
Proof.
  rewrite !notifications_app. by destruct (hashLog_quiet ids) as (_ & _ & -> & _).
Qed.

(** X14. An evaluation sends an error to the notifier in two cases only:
    the shortage of credit at the precise check, with which it ends as not
    having enough credit, and the rejection of the vault withdrawal, which it
    raises. Too early, already bonded, a hash mismatch, a detected reorg and
    a rejected transaction reach the notifier from no line of the
    evaluation. *)
Theorem error_notifications E id h t d c src ids w m :
  let run := checkTransfersCommitted E id h t d c src ids in
  (Error, m) ∈ notifications (emitted run w) ->
  (m = MNotEnoughCredit (getAvailableCreditForBond E (ethereumChainId E))
                        (getBondForTransferAmount E t)
   /\ result run w = Returned NotEnoughCredit)
  \/ (exists msg, m = MWithdrawError msg
                  /\ result run w = Thrown (RemoteFailure msg)).
Proof.
  intros run. subst run.
  rewrite checkTransfersCommitted_emitted, checkTransfersCommitted_result.
  unfold evaluationEvents, evaluationOutcome. cbv zeta.
  destruct (timingOk E c w); cbn [negb]; [| by intros ?%elem_of_nil].
  destruct (isTransferRootIdBonded E id); [by intros ?%elem_of_nil |].
  rewrite notifications_gates.
  destruct (hashOk E h ids); cbn [negb]; [| by intros ?%elem_of_nil].
  destruct (creditOk E t); cbn [negb].
  2: { simpl. intros Hin. apply elem_of_cons in Hin as [[= ->] | Hin]; [by left |].
       by apply elem_of_nil in Hin. }
  destruct (dryMode E); [by intros ?%elem_of_nil |].
  unfold sendEvents, sendOutcome. rewrite notifications_app.
  intros Hin. apply elem_of_app in Hin as [Hin | Hin].
  - apply notifications_vaultEvents in Hin as (msg & -> & ->); [| done].
    right. by exists msg.
  - destruct (vaultOutcome E d (getBondForTransferAmount E t));
      [| by apply elem_of_nil in Hin].
    simpl in Hin. by apply notifications_transmitEvents in Hin.
Qed.

(** The theorem on a root of 1000 units with 999 units of credit. *)
Lemma error_notifications_witness :
  result (checkTransfersCommitted
            (sampleEnv false false 999 0 110001 (TxSent "0xtx") None)
            "0xAb,0xcd" "0xAb,0xcd" 1000 137 100 10 (Some ["0xAb"; "0xcd"]))
         (sampleWorld (Some ["0xAb"; "0xcd"]))
  = Returned NotEnoughCredit.
Proof.
  destruct (error_notifications
              (sampleEnv false false 999 0 110001 (TxSent "0xtx") None)
              "0xAb,0xcd" "0xAb,0xcd" 1000 137 100 10 (Some ["0xAb"; "0xcd"])
              (sampleWorld (Some ["0xAb"; "0xcd"]))
              (MNotEnoughCredit 999 1000))
    as [[_ Hexit] | (msg & Hm & _)].
  - vm_compute. by left.
  - exact Hexit.
  - discriminate Hm.
Defined.

(** ** What an evaluation leaves in the store *)

Lemma checkTransfersCommitted_store E id h t d c src ids w :
  let s' := db (execute (checkTransfersCommitted E id h t d c src ids) w) in
  s' = db w \/ exists p, watcherPatch p /\ s' = storeUpdate id p (db w).
Proof.
  intros s'. subst s'.
  destruct (checkTransfersCommitted_summary E id h t d c src ids w)
    as (w' & Hrun & _ & Hdb).
  rewrite (execute_run _ _ _ _ Hrun), Hdb. clear Hrun Hdb.
  unfold evaluationEvents. cbv zeta.
  destruct (timingOk E c w); cbn [negb]; [| by left].
  destruct (isTransferRootIdBonded E id).
  { right. exists (TransferRoot.patchIsNotFound true). split; [by left | done]. }
  rewrite dbUpdates_gates.
  destruct (hashOk E h ids); cbn [negb]; [| by left].
  destruct (creditOk E t); cbn [negb]; [| by left].
  destruct (dryMode E); [by left |].
  rewrite dbUpdates_sendEvents.
  destruct (vaultOutcome E d (getBondForTransferAmount E t)); [| by left].
  right. eexists. split; [right; by eexists | done].
Qed.

Lemma sentBondTxAt_update (s : Store) id k p :
  watcherPatch p ->
  is_Some (s !! k ≫= TransferRoot.sentBondTxAt) ->
  is_Some (storeUpdate id p s !! k ≫= TransferRoot.sentBondTxAt).
Proof.
  intros Hp Hset. destruct (decide (id = k)) as [-> | Hne].
  - rewrite storeUpdate_lookup. simpl.
    destruct Hp as [-> | [now ->]]; simpl; [| by eexists].
    by destruct (s !! k).
  - by rewrite storeUpdate_lookup_ne.
Qed.

Lemma sameContent_update (s : Store) id k p r :
  watcherPatch p ->
  s !! k = Some r ->
  exists r', storeUpdate id p s !! k = Some r' /\ sameContent r r'.
Proof.
  intros Hp Hr. destruct (decide (id = k)) as [-> | Hne].
  - rewrite storeUpdate_lookup, Hr. eexists. split; [reflexivity |].
    by destruct Hp as [-> | [now ->]].
  - rewrite storeUpdate_lookup_ne by done. exists r. by split.
Qed.

(** X15. An evaluation deletes no stored root and alters of none the id,
    the hash, the amount, the route, the commit time or the members; it
    never clears a [sentBondTxAt] marker or an [isNotFound] flag that is
    set; and it keeps the store keyed by root id. *)
Theorem evaluation_keeps_the_store E id h t d c src ids w :
  let s' := db (execute (checkTransfersCommitted E id h t d c src ids) w) in
  (forall k r, db w !! k = Some r -> exists r', s' !! k = Some r' /\ sameContent r r')
  /\ (forall k, is_Some (db w !! k ≫= TransferRoot.sentBondTxAt) ->
                is_Some (s' !! k ≫= TransferRoot.sentBondTxAt))
  /\ (forall k, db w !! k ≫= TransferRoot.isNotFound = Some true ->
                s' !! k ≫= TransferRoot.isNotFound = Some true)
  /\ (storeKeyed (db w) -> storeKeyed s').
Proof.
  intros s'.
  destruct (checkTransfersCommitted_store E id h t d c src ids w)
    as [Hsame | (p & Hp & Hupd)]; fold s' in Hsame || fold s' in Hupd.
  - rewrite Hsame. repeat split; try done.
    intros k r Hr. exists r. by split.
  - rewrite Hupd. split; [| split; [| split]].
    + intros k r Hr. by apply sameContent_update.
    + intros k Hset. by apply sentBondTxAt_update.
    + intros k Hflag. by apply isNotFound_update.
    + intros Hkeyed. by apply storeKeyed_update.
Qed.

(** ** A whole poll *)











